(** * a2t: provider contract, query engine and meta responses

    A shallow embedding of the Go package [a2t] (types, the in-memory
    providers of provider.go, the meta-response constructors and the
    use cases of the HTTP server), with the properties of its
    specification stated and proved over it.

    Conventions of the embedding:
    - Go's [int] is a 64-bit two's-complement integer: a [Z] whose
      additions are wrapped explicitly ([int_add]);
    - a Go [string] is a byte string ([string] of [ascii] bytes);
    - [map[string]T] is [gmap string T]; a [for ... range] loop over a map
      visits its entries in an order the runtime chooses afresh for every
      loop, which the embedding receives as a [RangeOrder];
    - a run-time panic is the outcome [Panics]; a pointer result that may
      be nil is an [option]; a nil [error] is [None];
    - [interface{}] is the type [Value] of dynamically typed values. *)

From stdpp Require Import gmap strings list fin_maps.
From Stdlib Require Import Ascii ZArith Lia.

Set Warnings "-register-all".

(** ** Go basics: integers, panics, slices *)

Definition MaxInt : Z := (2 ^ 63 - 1)%Z.
Definition MinInt : Z := (- 2 ^ 63)%Z.

(** The value a 64-bit signed register holds after an operation whose
    mathematical result is [z]: Go's signed arithmetic wraps silently. *)
Definition int_wrap (z : Z) : Z := ((z + 2 ^ 63) mod 2 ^ 64 - 2 ^ 63)%Z.

Definition int_add (a b : Z) : Z := int_wrap (a + b).

Inductive outcome (A : Type) : Type :=
| Returns (a : A)
| Panics.
Arguments Returns {A} a.
Arguments Panics {A}.

#[global] Instance outcome_ret : MRet outcome := fun A a => Returns a.

#[global] Instance outcome_bind : MBind outcome := fun A B k m =>
  match m with
  | Returns a => k a
  | Panics => Panics
  end.

(** [len(s)] of a slice. *)
Definition len {A : Type} (s : list A) : Z := Z.of_nat (length s).

(** The slice expression [s[low:high]].  The runtime panics unless
    [0 <= low <= high <= cap(s)]; every slice sliced in this package was
    grown by [append] and is sliced with [high <= len(s)] or with a
    negative [high], so the bound is checked against [len(s)]. *)
Definition slice {A : Type} (s : list A) (low high : Z) : outcome (list A) :=
  if ((0 <=? low) && (low <=? high) && (high <=? len s))%Z
  then Returns (take (Z.to_nat (high - low)) (drop (Z.to_nat low) s))
  else Panics.

(** The order in which one [range] loop visits the values of a map. *)
Definition RangeOrder : Type := forall A : Type, gmap string A -> list A.

(** Every entry is visited exactly once. *)
Definition range_fair (rho : RangeOrder) : Prop :=
  forall (A : Type) (m : gmap string A), rho A m ≡ₚ (map_to_list m).*2.

Definition range_sorted : RangeOrder := fun A m => (map_to_list m).*2.
Definition range_reversed : RangeOrder := fun A m => reverse (map_to_list m).*2.

(** ** strings.ToLower and strings.Contains on byte strings *)

Definition isUpperByte (c : ascii) : bool :=
  ((65 <=? N_of_ascii c) && (N_of_ascii c <=? 90))%N.

(** [c += 'a' - 'A'] *)
Definition lowerByte (c : ascii) : ascii :=
  if isUpperByte c then ascii_of_N (N_of_ascii c + 32) else c.

(** [c < utf8.RuneSelf] *)
Definition isASCIIByte (c : ascii) : bool := (N_of_ascii c <? 128)%N.

Fixpoint allBytes (f : ascii -> bool) (s : string) : bool :=
  match s with
  | EmptyString => true
  | String c s' => f c && allBytes f s'
  end.

Fixpoint anyByte (f : ascii -> bool) (s : string) : bool :=
  match s with
  | EmptyString => false
  | String c s' => f c || anyByte f s'
  end.

Fixpoint mapBytes (f : ascii -> ascii) (s : string) : string :=
  match s with
  | EmptyString => EmptyString
  | String c s' => String (f c) (mapBytes f s')
  end.

Fixpoint HasPrefix (s prefix : string) {struct prefix} : bool :=
  match prefix, s with
  | EmptyString, _ => true
  | String c p', String d s' => bool_decide (c = d) && HasPrefix s' p'
  | String _ _, EmptyString => false
  end.

(** [strings.Contains(s, substr)]: [substr] occurs at some position of [s]. *)
Fixpoint Contains (s substr : string) : bool :=
  HasPrefix s substr ||
  match s with
  | EmptyString => false
  | String _ s' => Contains s' substr
  end.

(** What "is a substring of" means, independently of the search above. *)
Definition substring_of (sub s : string) : Prop :=
  exists pre post : string, s = pre +:+ sub +:+ post.

(** ** The catalog model (types.go) *)

Record ToolOf (V : Type) : Type := mkTool {
  Tool_Name : string;
  Tool_Description : string;
  Tool_InputSchema : gmap string V;
  Tool_GroupID : string }.
Arguments mkTool {V} _ _ _ _.
Arguments Tool_Name {V} _.
Arguments Tool_Description {V} _.
Arguments Tool_InputSchema {V} _.
Arguments Tool_GroupID {V} _.

(** The values an [interface{}] of this package holds: nil, JSON scalars,
    [[]string], [[]interface{}], [map[string]interface{}] and [[]Tool]. *)
Inductive Value : Type :=
| VNil
| VBool (b : bool)
| VInt (n : Z)
| VString (s : string)
| VStrings (l : list string)
| VSlice (l : list Value)
| VMap (m : gmap string Value)
| VTools (l : list (ToolOf Value)).

Abbreviation Tool := (ToolOf Value).

Record Group : Type := mkGroup {
  Group_ID : string;
  Group_Name : string;
  Group_Description : string;
  Group_ParentID : string;
  Group_ToolCount : Z }.

Record FeatureSet : Type := mkFeatureSet {
  Features_Groups : bool;
  Features_Search : bool;
  Features_DynamicTools : bool }.

Record EndpointConfig : Type := mkEndpointConfig {
  Endpoints_Tools : string;
  Endpoints_Groups : string }.

Record LimitsConfig : Type := mkLimitsConfig {
  MaxToolsPerRequest : Z;
  MaxGroupsPerRequest : Z;
  MaxSearchResults : Z }.

Record Capabilities : Type := mkCapabilities {
  Version : string;
  Features : FeatureSet;
  Endpoints : EndpointConfig;
  Limits : option LimitsConfig }.

Record ErrorDetail : Type := mkErrorDetail {
  Code : string;
  Message : string }.

(** The non-nil values of Go's [error] interface, by what their
    [Error()] method does: a value whose method returns a text (the
    errors of [fmt.Errorf] and [errors.New], and any other such error an
    executor returns); a [*ErrorDetail], where the pointer held by the
    interface may itself be nil; and a value of any other type whose
    method panics. *)
Inductive error : Type :=
| errorString (msg : string)
| errorDetail (e : option ErrorDetail)
| errorPanicking.

(** The [Error()] method.  For [*ErrorDetail] it is
    [fmt.Sprintf("%s: %s", e.Code, e.Message)], which dereferences the
    receiver and so panics on a nil pointer. *)
Definition Error (e : error) : outcome string :=
  match e with
  | errorString msg => Returns msg
  | errorDetail (Some d) => Returns (Code d +:+ ": " +:+ Message d)
  | errorDetail None => Panics
  | errorPanicking => Panics
  end.

Record MetaResponse : Type := mkMetaResponse {
  Meta_Type : Value;
  Meta_Data : Value }.

Record ExecuteResponse : Type := mkExecuteResponse {
  Response_Result : Value;
  Response_Error : option ErrorDetail;
  Response_Meta : option MetaResponse }.

Record ToolsResponse : Type := mkToolsResponse {
  Tools : list Tool;
  Tools_Total : Z;
  Tools_Offset : Z;
  Tools_Limit : Z }.

Record GroupsResponse : Type := mkGroupsResponse {
  Groups : list Group;
  Groups_Total : Z;
  Groups_Offset : Z;
  Groups_Limit : Z }.

Definition NewCapabilities : Capabilities :=
  {| Version := "1.0";
     Features := {| Features_Groups := false; Features_Search := false;
                    Features_DynamicTools := false |};
     Endpoints := {| Endpoints_Tools := "/tools"; Endpoints_Groups := "" |};
     Limits := None |}.

Definition Capabilities_WithGroups (c : Capabilities) (endpoint : string) : Capabilities :=
  let endpoint := if bool_decide (endpoint = "") then "/groups" else endpoint in
  {| Version := Version c;
     Features := {| Features_Groups := true;
                    Features_Search := Features_Search (Features c);
                    Features_DynamicTools := Features_DynamicTools (Features c) |};
     Endpoints := {| Endpoints_Tools := Endpoints_Tools (Endpoints c);
                     Endpoints_Groups := endpoint |};
     Limits := Limits c |}.

Definition Capabilities_WithSearch (c : Capabilities) : Capabilities :=
  {| Version := Version c;
     Features := {| Features_Groups := Features_Groups (Features c);
                    Features_Search := true;
                    Features_DynamicTools := Features_DynamicTools (Features c) |};
     Endpoints := Endpoints c;
     Limits := Limits c |}.

Definition Capabilities_WithDynamicTools (c : Capabilities) : Capabilities :=
  {| Version := Version c;
     Features := {| Features_Groups := Features_Groups (Features c);
                    Features_Search := Features_Search (Features c);
                    Features_DynamicTools := true |};
     Endpoints := Endpoints c;
     Limits := Limits c |}.

(** [limits] is a pointer and may be nil. *)
Definition Capabilities_WithLimits (c : Capabilities) (limits : option LimitsConfig)
    : Capabilities :=
  {| Version := Version c;
     Features := Features c;
     Endpoints := Endpoints c;
     Limits := limits |}.

Definition NewTool (name description : string) : Tool :=
  {| Tool_Name := name;
     Tool_Description := description;
     Tool_InputSchema :=
       <["type" := VString "object"]>
       (<["properties" := VMap ∅]>
       (<["required" := VStrings []]> ∅));
     Tool_GroupID := "" |}.

(** [t.InputSchema["properties"].(map[string]interface{})] and
    [t.InputSchema["required"].([]string)] are unchecked type assertions:
    they panic on a schema of another shape. *)
Definition Tool_WithProperty (t : Tool) (name propType description : string)
    (required : bool) : outcome Tool :=
  match Tool_InputSchema t !! "properties" with
  | Some (VMap props) =>
      let prop := VMap (<["type" := VString propType]>
                        (<["description" := VString description]> ∅)) in
      let schema := <["properties" := VMap (<[name := prop]> props)]> (Tool_InputSchema t) in
      if required then
        match schema !! "required" with
        | Some (VStrings reqs) =>
            Returns {| Tool_Name := Tool_Name t;
                       Tool_Description := Tool_Description t;
                       Tool_InputSchema := <["required" := VStrings (reqs ++ [name])]> schema;
                       Tool_GroupID := Tool_GroupID t |}
        | _ => Panics
        end
      else
        Returns {| Tool_Name := Tool_Name t;
                   Tool_Description := Tool_Description t;
                   Tool_InputSchema := schema;
                   Tool_GroupID := Tool_GroupID t |}
  | _ => Panics
  end.

Definition Tool_WithGroup (t : Tool) (groupID : string) : Tool :=
  {| Tool_Name := Tool_Name t;
     Tool_Description := Tool_Description t;
     Tool_InputSchema := Tool_InputSchema t;
     Tool_GroupID := groupID |}.

Definition NewGroup (id name description : string) : Group :=
  {| Group_ID := id; Group_Name := name; Group_Description := description;
     Group_ParentID := ""; Group_ToolCount := 0 |}.

Definition Group_WithParent (g : Group) (parentID : string) : Group :=
  {| Group_ID := Group_ID g; Group_Name := Group_Name g;
     Group_Description := Group_Description g;
     Group_ParentID := parentID; Group_ToolCount := Group_ToolCount g |}.

Definition Group_WithToolCount (g : Group) (count : Z) : Group :=
  {| Group_ID := Group_ID g; Group_Name := Group_Name g;
     Group_Description := Group_Description g;
     Group_ParentID := Group_ParentID g; Group_ToolCount := count |}.

(** ** Meta responses (meta.go) *)

Definition NewMetaToolsAdded (tools : list Tool) : MetaResponse :=
  {| Meta_Type := VString "tools_added";
     Meta_Data := VMap (<["tools" := VTools tools]> ∅) |}.

Definition NewMetaGroupRefresh (groupIDs : list string) : MetaResponse :=
  {| Meta_Type := VString "group_refresh";
     Meta_Data := VMap (<["group_ids" := VStrings groupIDs]> ∅) |}.

(** [r.Meta = meta; return r]: [meta] may be a nil pointer. *)
Definition ExecuteResponse_WithMeta (r : ExecuteResponse) (meta : option MetaResponse)
    : ExecuteResponse :=
  {| Response_Result := Response_Result r;
     Response_Error := Response_Error r;
     Response_Meta := meta |}.

Definition NewExecuteResponse (result : Value) : ExecuteResponse :=
  {| Response_Result := result; Response_Error := None; Response_Meta := None |}.

Definition NewExecuteError (code message : string) : ExecuteResponse :=
  {| Response_Result := VNil;
     Response_Error := Some {| Code := code; Message := message |};
     Response_Meta := None |}.

(** A stand-in for the Unicode path of [strings.ToLower] where every
    string at hand is ASCII and the path is never taken. *)
Definition ascii_only : string -> string := fun s => s.

Section A2T.

(** [context.Context], opaque to this package. *)
Variable Ctx : Type.

(** [strings.Map(unicode.ToLower, s)], the path [strings.ToLower] takes on
    a string with a byte outside ASCII; it reads the Unicode tables of
    Go's standard library. *)
Variable MapUnicodeToLower : string -> string.

(** ** The query engine (provider.go) *)

(** [strings.ToLower]: ASCII-only strings are lowered byte by byte (and
    returned as they are when no byte is an upper-case letter). *)
Definition ToLower (s : string) : string :=
  if allBytes isASCIIByte s then
    if anyByte isUpperByte s then mapBytes lowerByte s else s
  else MapUnicodeToLower s.

Definition matchesQuery (name description query : string) : bool :=
  let query := ToLower query in
  let name := ToLower name in
  let description := ToLower description in
  Contains name query || Contains description query.

(** ** The providers (provider.go) *)

(** A parameter map; [None] is the nil map. *)
Definition Params : Type := option (gmap string Value).

(** [ToolExecutor]; [None] is the nil function, whose call panics. *)
Definition ToolExecutor : Type :=
  option (Ctx -> Params -> outcome (Value * option error)).

Record SimpleProvider : Type := mkSimpleProvider {
  capabilities : Capabilities;
  tools : gmap string Tool;
  executors : gmap string ToolExecutor }.

Definition NewSimpleProvider (caps : option Capabilities) : SimpleProvider :=
  let caps := match caps with None => NewCapabilities | Some c => c end in
  {| capabilities := caps; tools := ∅; executors := ∅ |}.

Definition SimpleProvider_RegisterTool (p : SimpleProvider) (tool : Tool)
    (executor : ToolExecutor) : SimpleProvider :=
  {| capabilities := capabilities p;
     tools := <[Tool_Name tool := tool]> (tools p);
     executors := <[Tool_Name tool := executor]> (executors p) |}.

Definition SimpleProvider_GetCapabilities (p : SimpleProvider) : Capabilities :=
  capabilities p.

Definition SimpleProvider_ListTools (p : SimpleProvider) (rho : RangeOrder) (ctx : Ctx)
    (groupID query : string) (offset limit : Z)
    : outcome (option ToolsResponse * option error) :=
  let tools :=
    foldl (fun (tools : list Tool) (tool : Tool) =>
      (* Filter by group *)
      if bool_decide (groupID ≠ "") && bool_decide (Tool_GroupID tool ≠ groupID)
      then tools
      else
        (* Filter by search query *)
        if bool_decide (query ≠ "")
        then
          if negb (matchesQuery (Tool_Name tool) (Tool_Description tool) query)
          then tools
          else tools ++ [tool]
        else tools ++ [tool])
      [] (rho Tool (tools p)) in
  let total := len tools in
  (* Apply pagination *)
  tools ←
    (if (offset >=? len tools)%Z
     then Returns []
     else
       let end_ := int_add offset limit in
       let end_ := if (limit =? 0)%Z || (end_ >? len tools)%Z then len tools else end_ in
       slice tools offset end_);
  Returns (Some {| Tools := tools; Tools_Total := total;
                   Tools_Offset := offset; Tools_Limit := limit |}, None).

Definition SimpleProvider_ExecuteTool (p : SimpleProvider) (ctx : Ctx)
    (toolName : string) (params : Params)
    : outcome (option ExecuteResponse * option error) :=
  match executors p !! toolName with
  | None =>
      Returns (Some {| Response_Result := VNil;
                       Response_Error := Some {| Code := "tool_not_found";
                                                 Message := "Tool not found: " +:+ toolName |};
                       Response_Meta := None |}, None)
  | Some executor =>
      match executor with
      | None => Panics
      | Some run =>
          '(result, err) ← run ctx params;
          match err with
          | Some err =>
              message ← Error err;
              Returns (Some {| Response_Result := VNil;
                               Response_Error := Some {| Code := "execution_error";
                                                         Message := message |};
                               Response_Meta := None |}, None)
          | None =>
              Returns (Some {| Response_Result := result;
                               Response_Error := None;
                               Response_Meta := None |}, None)
          end
      end
  end.

(** [GroupProviderImpl] embeds [*SimpleProvider]. *)
Record GroupProviderImpl : Type := mkGroupProviderImpl {
  embedded : SimpleProvider;
  groups : gmap string Group }.

Definition NewGroupProvider (caps : option Capabilities) : GroupProviderImpl :=
  let caps := match caps with None => NewCapabilities | Some c => c end in
  let caps := Capabilities_WithGroups caps "" in
  {| embedded := NewSimpleProvider (Some caps); groups := ∅ |}.

Definition GroupProviderImpl_RegisterGroup (p : GroupProviderImpl) (group : Group)
    : GroupProviderImpl :=
  {| embedded := embedded p; groups := <[Group_ID group := group]> (groups p) |}.

(** [RegisterTool], promoted from the embedded provider. *)
Definition GroupProviderImpl_RegisterTool (p : GroupProviderImpl) (tool : Tool)
    (executor : ToolExecutor) : GroupProviderImpl :=
  {| embedded := SimpleProvider_RegisterTool (embedded p) tool executor;
     groups := groups p |}.

Definition GroupProviderImpl_ListGroups (p : GroupProviderImpl) (rho : RangeOrder)
    (ctx : Ctx) (parentID query : string) (offset limit : Z)
    : outcome (option GroupsResponse * option error) :=
  let groups :=
    foldl (fun (groups : list Group) (group : Group) =>
      (* Filter by parent *)
      if bool_decide (parentID ≠ "") && bool_decide (Group_ParentID group ≠ parentID)
      then groups
      else
        (* Filter by search query *)
        if bool_decide (query ≠ "")
        then
          if negb (matchesQuery (Group_Name group) (Group_Description group) query)
          then groups
          else groups ++ [group]
        else groups ++ [group])
      [] (rho Group (groups p)) in
  let total := len groups in
  (* Apply pagination *)
  groups ←
    (if (offset >=? len groups)%Z
     then Returns []
     else
       let end_ := int_add offset limit in
       let end_ := if (limit =? 0)%Z || (end_ >? len groups)%Z then len groups else end_ in
       slice groups offset end_);
  Returns (Some {| Groups := groups; Groups_Total := total;
                   Groups_Offset := offset; Groups_Limit := limit |}, None).

Definition GroupProviderImpl_GetGroup (p : GroupProviderImpl) (ctx : Ctx)
    (groupID : string) : outcome (option Group * option error) :=
  match groups p !! groupID with
  | None =>
      Returns (None, Some (errorDetail (Some {| Code := "group_not_found";
                                                Message := "Group not found: " +:+ groupID |})))
  | Some group => Returns (Some group, None)
  end.

(** ** The provider interfaces and the values that implement them *)

Class ToolProvider (P : Type) : Type := {
  GetCapabilities : P -> Capabilities;
  ListTools : P -> RangeOrder -> Ctx -> string -> string -> Z -> Z ->
              outcome (option ToolsResponse * option error);
  ExecuteTool : P -> Ctx -> string -> Params ->
                outcome (option ExecuteResponse * option error) }.

(** [GroupProvider] embeds [ToolProvider]: a type that implements it has
    one method set, so its [ExecuteTool] is the same method under either
    interface. *)
Class GroupProvider (P : Type) : Type := {
  GroupProvider_ToolProvider :: ToolProvider P;
  ListGroups : P -> RangeOrder -> Ctx -> string -> string -> Z -> Z ->
               outcome (option GroupsResponse * option error);
  GetGroup : P -> Ctx -> string -> outcome (option Group * option error) }.

#[global] Instance SimpleProvider_implements : ToolProvider SimpleProvider := {|
  GetCapabilities := SimpleProvider_GetCapabilities;
  ListTools := SimpleProvider_ListTools;
  ExecuteTool := SimpleProvider_ExecuteTool |}.

(** The methods of the embedded [*SimpleProvider] are promoted. *)
#[global] Instance GroupProviderImpl_implements : GroupProvider GroupProviderImpl := {|
  GroupProvider_ToolProvider := {|
    GetCapabilities := fun p => SimpleProvider_GetCapabilities (embedded p);
    ListTools := fun p => SimpleProvider_ListTools (embedded p);
    ExecuteTool := fun p => SimpleProvider_ExecuteTool (embedded p) |};
  ListGroups := GroupProviderImpl_ListGroups;
  GetGroup := GroupProviderImpl_GetGroup |}.

(** A non-nil value of interface type [ToolProvider]: a value of some
    dynamic type whose method set has the three base methods, and may or
    may not have the two group methods as well. *)
Inductive ProviderValue : Type :=
| baseTier (P : Type) (methods : ToolProvider P) (p : P)
| groupTier (P : Type) (methods : GroupProvider P) (p : P).

(** ** The HTTP server's use cases (server.go) *)

Record Server : Type := mkServer { provider : ProviderValue }.

Record ListToolsInput : Type := mkListToolsInput {
  ListTools_Q : string;
  ListTools_Offset : Z;
  ListTools_Limit : Z }.

Record ListGroupsInput : Type := mkListGroupsInput {
  ListGroups_Q : string;
  ListGroups_ParentID : string;
  ListGroups_Offset : Z;
  ListGroups_Limit : Z }.

(** The use case's [input] struct: the embedded [ExecuteToolInput] and
    the request body. *)
Record ExecuteToolInput : Type := mkExecuteToolInput {
  ExecuteTool_Name : string;
  ExecuteTool_Params : Params;
  ExecuteTool_Body : Params }.

Record ListGroupToolsInput : Type := mkListGroupToolsInput {
  ListGroupTools_ID : string;
  ListGroupTools_Q : string;
  ListGroupTools_Offset : Z;
  ListGroupTools_Limit : Z }.

Record ExecuteGroupToolInput : Type := mkExecuteGroupToolInput {
  ExecuteGroupTool_ID : string;
  ExecuteGroupTool_Name : string;
  ExecuteGroupTool_Params : Params;
  ExecuteGroupTool_Body : Params }.

(** The provider's methods called through the [ToolProvider] interface. *)
Definition provider_GetCapabilities (v : ProviderValue) : Capabilities :=
  match v with
  | baseTier _ _ p => GetCapabilities p
  | groupTier _ _ p => GetCapabilities p
  end.

Definition provider_ListTools (v : ProviderValue) :=
  match v with
  | baseTier _ _ p => ListTools p
  | groupTier _ _ p => ListTools p
  end.

Definition provider_ExecuteTool (v : ProviderValue) :=
  match v with
  | baseTier _ _ p => ExecuteTool p
  | groupTier _ _ p => ExecuteTool p
  end.

(** An interactor is a function of the context, the input and the output
    the framework allocated; it returns the output as it leaves it and
    its [error].  [*output = *resp] panics on a nil [resp]. *)
Definition finish {O : Type} (output : O) (r : option O * option error)
    : outcome (O * option error) :=
  match r with
  | (_, Some err) => Returns (output, Some err)
  | (None, None) => Panics
  | (Some resp, None) => Returns (resp, None)
  end.

Definition Server_capabilitiesUsecase (s : Server) (ctx : Ctx) (output : Capabilities)
    : outcome (Capabilities * option error) :=
  Returns (provider_GetCapabilities (provider s), None).

Definition Server_listToolsUsecase (s : Server) (rho : RangeOrder) (ctx : Ctx)
    (input : ListToolsInput) (output : ToolsResponse)
    : outcome (ToolsResponse * option error) :=
  let limit := ListTools_Limit input in
  let limit := if (limit =? 0)%Z then 100%Z else limit in
  r ← provider_ListTools (provider s) rho ctx "" (ListTools_Q input)
        (ListTools_Offset input) limit;
  finish output r.

Definition Server_executeToolUsecase (s : Server) (ctx : Ctx)
    (input : ExecuteToolInput) (output : ExecuteResponse)
    : outcome (ExecuteResponse * option error) :=
  (* Use Body from the request *)
  let params := ExecuteTool_Body input in
  let params := match params with None => Some ∅ | Some _ => params end in
  r ← provider_ExecuteTool (provider s) ctx (ExecuteTool_Name input) params;
  finish output r.

Definition Server_listGroupsUsecase (s : Server) (rho : RangeOrder) (ctx : Ctx)
    (input : ListGroupsInput) (output : GroupsResponse)
    : outcome (GroupsResponse * option error) :=
  match provider s with
  | baseTier _ _ _ => Returns (output, Some (errorString "groups not supported"))
  | groupTier _ _ groupProvider =>
      let limit := ListGroups_Limit input in
      let limit := if (limit =? 0)%Z then 50%Z else limit in
      r ← ListGroups groupProvider rho ctx (ListGroups_ParentID input)
            (ListGroups_Q input) (ListGroups_Offset input) limit;
      finish output r
  end.

Definition Server_listGroupToolsUsecase (s : Server) (rho : RangeOrder) (ctx : Ctx)
    (input : ListGroupToolsInput) (output : ToolsResponse)
    : outcome (ToolsResponse * option error) :=
  match provider s with
  | baseTier _ _ _ => Returns (output, Some (errorString "groups not supported"))
  | groupTier _ _ groupProvider =>
      let limit := ListGroupTools_Limit input in
      let limit := if (limit =? 0)%Z then 100%Z else limit in
      r ← ListTools groupProvider rho ctx (ListGroupTools_ID input)
            (ListGroupTools_Q input) (ListGroupTools_Offset input) limit;
      finish output r
  end.

Definition Server_executeGroupToolUsecase (s : Server) (ctx : Ctx)
    (input : ExecuteGroupToolInput) (output : ExecuteResponse)
    : outcome (ExecuteResponse * option error) :=
  match provider s with
  | baseTier _ _ _ => Returns (output, Some (errorString "groups not supported"))
  | groupTier _ _ groupProvider =>
      (* Use Body from the request *)
      let params := ExecuteGroupTool_Body input in
      let params := match params with None => Some ∅ | Some _ => params end in
      r ← ExecuteTool groupProvider ctx (ExecuteGroupTool_Name input) params;
      finish output r
  end.

(** The routes [registerRoutes] registers, as (method, path, use case). *)
Inductive Usecase : Type :=
| capabilitiesRoute | listToolsRoute | executeToolRoute
| listGroupsRoute | listGroupToolsRoute | executeGroupToolRoute.

Definition Server_registerRoutes (s : Server) : list (string * string * Usecase) :=
  let caps := provider_GetCapabilities (provider s) in
  [("GET", "/.well-known/a2t-capabilities.json", capabilitiesRoute);
   ("GET", Endpoints_Tools (Endpoints caps), listToolsRoute);
   ("POST", Endpoints_Tools (Endpoints caps) +:+ "/{name}", executeToolRoute)]
  ++ (if Features_Groups (Features caps)
      then [("GET", Endpoints_Groups (Endpoints caps), listGroupsRoute);
            ("GET", Endpoints_Groups (Endpoints caps) +:+ "/{id}/tools", listGroupToolsRoute);
            ("POST", Endpoints_Groups (Endpoints caps) +:+ "/{id}/tools/{name}",
             executeGroupToolRoute)]
      else []).

(** ** Specification-side vocabulary *)

(** The loop of [ListTools] appends a tool when this holds. *)
Definition tool_selected (groupID query : string) (t : Tool) : bool :=
  negb (bool_decide (groupID ≠ "") && bool_decide (Tool_GroupID t ≠ groupID)) &&
  (if bool_decide (query ≠ "")
   then matchesQuery (Tool_Name t) (Tool_Description t) query
   else true).

(** The loop of [ListGroups] appends a group when this holds. *)
Definition group_selected (parentID query : string) (g : Group) : bool :=
  negb (bool_decide (parentID ≠ "") && bool_decide (Group_ParentID g ≠ parentID)) &&
  (if bool_decide (query ≠ "")
   then matchesQuery (Group_Name g) (Group_Description g) query
   else true).

(** The registered tools (groups), in no particular order. *)
Definition registered_tools (p : SimpleProvider) : list Tool := (map_to_list (tools p)).*2.
Definition registered_groups (p : GroupProviderImpl) : list Group := (map_to_list (groups p)).*2.

(** The number of items that pass the filters, before slicing. *)
Definition matching_tools (p : SimpleProvider) (groupID query : string) : Z :=
  len (filter (tool_selected groupID query) (registered_tools p)).
Definition matching_groups (p : GroupProviderImpl) (parentID query : string) : Z :=
  len (filter (group_selected parentID query) (registered_groups p)).

(** The pagination block shared, textually, by [ListTools] and [ListGroups]. *)
Definition paginate {A : Type} (items : list A) (offset limit : Z) : outcome (list A) :=
  if (offset >=? len items)%Z
  then Returns []
  else
    let end_ := int_add offset limit in
    let end_ := if (limit =? 0)%Z || (end_ >? len items)%Z then len items else end_ in
    slice items offset end_.

(** The page length the specification promises, as it is written there:
    [min(max(total-offset,0), limit==0 ? total-offset : limit)]. *)
Definition page_length_as_specified (total offset limit : Z) : Z :=
  Z.min (Z.max (total - offset) 0) (if (limit =? 0)%Z then total - offset else limit)%Z.

(** The same with the unlimited case clamped at zero as well. *)
Definition page_length (total offset limit : Z) : Z :=
  Z.min (Z.max (total - offset) 0)
        (if (limit =? 0)%Z then Z.max (total - offset) 0 else limit)%Z.

(** A protocol-level error is structured data: a code and a message. *)
Definition protocol_level_error (e : option error) : Prop :=
  exists d : ErrorDetail, e = Some (errorDetail (Some d)).

(** What a client reads at [meta.data.tools] of a response. *)
Definition meta_data_tools (r : ExecuteResponse) : option (list Tool) :=
  match Response_Meta r with
  | Some {| Meta_Data := VMap data |} =>
      match data !! "tools" with
      | Some (VTools ts) => Some ts
      | _ => None
      end
  | _ => None
  end.

(** What a client reads at [meta.data.group_ids] of a response. *)
Definition meta_data_group_ids (r : ExecuteResponse) : option (list string) :=
  match Response_Meta r with
  | Some {| Meta_Data := VMap data |} =>
      match data !! "group_ids" with
      | Some (VStrings ids) => Some ids
      | _ => None
      end
  | _ => None
  end.

(** Capabilities made by [NewCapabilities] and the [With...] builders. *)
Inductive capabilities_built : Capabilities -> Prop :=
| built_new : capabilities_built NewCapabilities
| built_groups c endpoint :
    capabilities_built c -> capabilities_built (Capabilities_WithGroups c endpoint)
| built_search c :
    capabilities_built c -> capabilities_built (Capabilities_WithSearch c)
| built_dynamic c :
    capabilities_built c -> capabilities_built (Capabilities_WithDynamicTools c)
| built_limits c limits :
    capabilities_built c -> capabilities_built (Capabilities_WithLimits c limits).

(** Providers made by [NewSimpleProvider] and calls of [RegisterTool]. *)
Inductive registry_built : SimpleProvider -> Prop :=
| registry_new caps : registry_built (NewSimpleProvider caps)
| registry_register p tool executor :
    registry_built p -> registry_built (SimpleProvider_RegisterTool p tool executor).

(** The two entries of an input schema that [WithProperty] asserts on. *)
Definition schema_shaped (t : Tool) (props : gmap string Value) (reqs : list string) : Prop :=
  Tool_InputSchema t !! "properties" = Some (VMap props) /\
  Tool_InputSchema t !! "required" = Some (VStrings reqs).

(** The limit a listing use case passes on: [0] stands for the default. *)
Definition effective_limit (limit default : Z) : Z :=
  if (limit =? 0)%Z then default else limit.

(** ** Fixtures: the providers of the examples *)

Definition add_tool : Tool := Tool_WithGroup (NewTool "add" "Add two numbers") "math".
Definition uppercase_tool : Tool :=
  Tool_WithGroup (NewTool "uppercase" "Convert text to uppercase") "string".

Definition failing_executor : ToolExecutor :=
  Some (fun _ _ => Returns (VNil, Some (errorString "invalid timezone: Mars"))).
(** An executor that fails with a nil [*ErrorDetail]: [return nil, e]
    for a [var e *ErrorDetail], a non-nil [error] all the same. *)
Definition nil_detail_executor : ToolExecutor :=
  Some (fun _ _ => Returns (VNil, Some (errorDetail None))).
Definition echo_executor : ToolExecutor :=
  Some (fun _ params =>
    Returns (match params with Some m => VMap m | None => VNil end, None)).

Definition two_tools : SimpleProvider :=
  SimpleProvider_RegisterTool
    (SimpleProvider_RegisterTool (NewSimpleProvider None) add_tool echo_executor)
    uppercase_tool failing_executor.

Definition nil_detail_provider : SimpleProvider :=
  SimpleProvider_RegisterTool (NewSimpleProvider None)
    (NewTool "lookup" "Look up a record") nil_detail_executor.

Definition two_groups : GroupProviderImpl :=
  GroupProviderImpl_RegisterTool
    (GroupProviderImpl_RegisterTool
      (GroupProviderImpl_RegisterGroup
        (GroupProviderImpl_RegisterGroup (NewGroupProvider None)
          (NewGroup "math" "Mathematics" "Mathematical operations"))
        (NewGroup "string" "String Operations" "Tools for manipulating strings"))
      add_tool echo_executor)
    uppercase_tool failing_executor.

(** A base-tier provider that advertises groups, so that the group routes
    are registered in front of it. *)
Definition base_with_group_routes : Server :=
  {| provider := baseTier SimpleProvider _
       (NewSimpleProvider (Some (Capabilities_WithGroups NewCapabilities ""))) |}.

Definition group_server : Server :=
  {| provider := groupTier GroupProviderImpl _ two_groups |}.

Definition algebra_group : Group :=
  Group_WithParent (NewGroup "algebra" "Algebra" "Algebraic tools") "math".

Definition nested_groups : GroupProviderImpl :=
  GroupProviderImpl_RegisterGroup two_groups algebra_group.

Definition zero_ToolsResponse : ToolsResponse :=
  {| Tools := []; Tools_Total := 0; Tools_Offset := 0; Tools_Limit := 0 |}.
Definition zero_GroupsResponse : GroupsResponse :=
  {| Groups := []; Groups_Total := 0; Groups_Offset := 0; Groups_Limit := 0 |}.
Definition zero_ExecuteResponse : ExecuteResponse :=
  {| Response_Result := VNil; Response_Error := None; Response_Meta := None |}.

(** ** Go's integers and slices *)

Lemma range_sorted_fair : range_fair range_sorted.
Proof. by intros A m. Qed.

Lemma range_reversed_fair : range_fair range_reversed.
Proof. intros A m. unfold range_reversed. by rewrite reverse_Permutation. Qed.

Lemma int_wrap_id (z : Z) : (MinInt <= z <= MaxInt)%Z -> int_wrap z = z.
Proof.
  unfold int_wrap, MinInt, MaxInt. intros Hz.
  rewrite Z.mod_small by lia. lia.
Qed.

Lemma len_nonneg {A : Type} (l : list A) : (0 <= len l)%Z.
Proof. unfold len. lia. Qed.

Lemma slice_in_bounds {A : Type} (s : list A) (low high : Z) :
  (0 <= low <= high)%Z -> (high <= len s)%Z ->
  slice s low high = Returns (take (Z.to_nat (high - low)) (drop (Z.to_nat low) s)).
Proof.
  intros [Hl Hh] Hs. unfold slice.
  assert (Hc : ((0 <=? low) && (low <=? high) && (high <=? len s))%Z = true).
  { rewrite !andb_true_iff. repeat split; apply Z.leb_le; lia. }
  by rewrite Hc.
Qed.

Lemma slice_length {A : Type} (s : list A) (low high : Z) (page : list A) :
  slice s low high = Returns page -> len page = (high - low)%Z.
Proof.
  unfold slice. destruct (_ && _) eqn:Hc; [|done].
  rewrite !andb_true_iff in Hc. destruct Hc as [[Hl Hh] Hs].
  apply Z.leb_le in Hl, Hh, Hs. unfold len in *.
  intros [= <-]. rewrite length_take, length_drop. lia.
Qed.

(** ** Substring search *)

Lemma HasPrefix_spec (s pre : string) :
  HasPrefix s pre <-> exists post : string, s = pre +:+ post.
Proof.
  revert s. induction pre as [|c pre IH]; intros s; simpl.
  - split; [by exists s|done].
  - destruct s as [|d s].
    + split; [done|]. by intros [post ?].
    + rewrite andb_True, bool_decide_spec, IH. split.
      * intros [-> [post ->]]. by exists post.
      * intros [post [= -> ->]]. split; [done|]. by exists post.
Qed.

Lemma Contains_spec (s sub : string) : Contains s sub <-> substring_of sub s.
Proof.
  unfold substring_of. induction s as [|a s IH]; simpl.
  - rewrite orb_True, HasPrefix_spec. split.
    + intros [[post Hp]|[]]. by exists EmptyString, post.
    + intros ([|? ?] & post & Hp); [|done]. left. by exists post.
  - rewrite orb_True, HasPrefix_spec, IH. split.
    + intros [[post Hp]|(pre & post & ->)].
      * by exists EmptyString, post.
      * by exists (String a pre), post.
    + intros ([|b pre] & post & Hp); simpl in Hp.
      * left. by exists post.
      * injection Hp as -> ->. right. by exists pre, post.
Qed.

Lemma matchesQuery_spec (name description query : string) :
  matchesQuery name description query <->
  substring_of (ToLower query) (ToLower name) \/
  substring_of (ToLower query) (ToLower description).
Proof. unfold matchesQuery. cbv zeta. by rewrite orb_True, !Contains_spec. Qed.

(** ** The filtering loop and the pagination block *)

Lemma foldl_select {A : Type} (step : list A -> A -> list A) (keep : A -> bool) :
  (forall acc x, step acc x = if keep x then acc ++ [x] else acc) ->
  forall l acc, foldl step acc l = acc ++ filter keep l.
Proof.
  intros Hstep l. induction l as [|x l IH]; intros acc; simpl.
  - by rewrite app_nil_r.
  - rewrite IH, Hstep. destruct (keep x) eqn:Hk.
    + rewrite filter_cons_True; [|by rewrite Hk]. by rewrite <- app_assoc.
    + rewrite filter_cons_False; [done|]. rewrite Hk. simpl. tauto.
Qed.

Lemma ListTools_unfold (p : SimpleProvider) (rho : RangeOrder) (ctx : Ctx)
    (groupID query : string) (offset limit : Z) :
  SimpleProvider_ListTools p rho ctx groupID query offset limit =
  let selected := filter (tool_selected groupID query) (rho Tool (tools p)) in
  page ← paginate selected offset limit;
  Returns (Some {| Tools := page; Tools_Total := len selected;
                   Tools_Offset := offset; Tools_Limit := limit |}, None).
Proof.
  unfold SimpleProvider_ListTools, paginate.
  rewrite (foldl_select _ (tool_selected groupID query)); [done|].
  intros acc t. unfold tool_selected.
  destruct (bool_decide (groupID ≠ "") && bool_decide (Tool_GroupID t ≠ groupID)); [done|].
  destruct (bool_decide (query ≠ "")); [|done].
  by destruct (matchesQuery _ _ _).
Qed.

Lemma ListGroups_unfold (p : GroupProviderImpl) (rho : RangeOrder) (ctx : Ctx)
    (parentID query : string) (offset limit : Z) :
  GroupProviderImpl_ListGroups p rho ctx parentID query offset limit =
  let selected := filter (group_selected parentID query) (rho Group (groups p)) in
  page ← paginate selected offset limit;
  Returns (Some {| Groups := page; Groups_Total := len selected;
                   Groups_Offset := offset; Groups_Limit := limit |}, None).
Proof.
  unfold GroupProviderImpl_ListGroups, paginate.
  rewrite (foldl_select _ (group_selected parentID query)); [done|].
  intros acc g. unfold group_selected.
  destruct (bool_decide (parentID ≠ "") && bool_decide (Group_ParentID g ≠ parentID)); [done|].
  destruct (bool_decide (query ≠ "")); [|done].
  by destruct (matchesQuery _ _ _).
Qed.

(** The number of selected items does not depend on the visiting order. *)
Lemma selected_count {A : Type} (keep : A -> bool) (rho : RangeOrder)
    (m : gmap string A) :
  range_fair rho ->
  len (filter keep (rho A m)) = len (filter keep (map_to_list m).*2).
Proof.
  intros Hfair. unfold len. f_equal.
  apply Permutation_length. by rewrite (Hfair A m).
Qed.

(** Past the end of the list the page is empty, whatever the limit. *)
Lemma paginate_past_end {A : Type} (items : list A) (offset limit : Z) :
  (len items <= offset)%Z -> paginate items offset limit = Returns [].
Proof.
  intros Ho. unfold paginate.
  destruct (Z.geb_spec offset (len items)); [done|lia].
Qed.

(** With non-negative arguments whose sum is an [int], the slice is in
    bounds and the page is the window [[offset, offset+limit)] cut at the
    end of the list ([limit = 0]: everything from [offset]). *)
Lemma paginate_in_range {A : Type} (items : list A) (offset limit : Z) :
  (0 <= offset)%Z -> (0 <= limit)%Z -> (offset + limit <= MaxInt)%Z ->
  exists page,
    paginate items offset limit = Returns page /\
    page = (if (limit =? 0)%Z then drop (Z.to_nat offset) items
            else take (Z.to_nat limit) (drop (Z.to_nat offset) items)) /\
    len page = page_length (len items) offset limit.
Proof.
  intros Ho Hl Hsum.
  pose proof (len_nonneg items) as Hlen.
  assert (Hpl : forall n : nat,
    len (take n (drop (Z.to_nat offset) items)) =
    Z.min (Z.max (len items - offset) 0) (Z.of_nat n)).
  { intros n. unfold len. rewrite length_take, length_drop. lia. }
  assert (Hall : forall n : nat, (len items - offset <= Z.of_nat n)%Z ->
    take n (drop (Z.to_nat offset) items) = drop (Z.to_nat offset) items).
  { intros n Hn. apply take_ge. rewrite length_drop. unfold len in Hn. lia. }
  unfold paginate, page_length.
  destruct (Z.geb_spec offset (len items)) as [Hge|Hlt].
  - exists []. split; [done|]. split.
    + rewrite drop_ge; [by destruct (limit =? 0)%Z; rewrite ?take_nil|].
      unfold len in Hge. lia.
    + unfold len at 1. simpl. destruct (limit =? 0)%Z; lia.
  - unfold int_add. rewrite int_wrap_id by (unfold MinInt, MaxInt in *; lia).
    destruct (Z.eqb_spec limit 0) as [->|Hne]; simpl.
    + eexists. split; [apply slice_in_bounds; lia|]. split.
      * apply Hall. lia.
      * rewrite Hpl. lia.
    + destruct (Z.gtb_spec (offset + limit) (len items)) as [Hgt|Hle].
      * eexists. split; [apply slice_in_bounds; lia|]. split.
        -- rewrite !Hall; [done|lia|lia].
        -- rewrite Hpl. lia.
      * eexists. split; [apply slice_in_bounds; lia|]. split.
        -- f_equal. lia.
        -- rewrite Hpl. lia.
Qed.

(** When the sum [offset + limit] leaves the range of [int], [end] wraps
    to a negative number, escapes the clamp [end > len] and the slice
    expression panics. *)
Lemma paginate_overflow {A : Type} (items : list A) (offset limit : Z) :
  (0 <= offset < len items)%Z -> (limit <= MaxInt)%Z -> (MaxInt < offset + limit)%Z ->
  (len items <= MaxInt)%Z ->
  paginate items offset limit = Panics.
Proof.
  intros [Ho Hlt] Hl Hsum Hlen. unfold paginate.
  destruct (Z.geb_spec offset (len items)); [lia|].
  assert (Hend : int_add offset limit = (offset + limit - 2 ^ 64)%Z).
  { unfold int_add, int_wrap, MaxInt in *.
    replace (offset + limit + 2 ^ 63)%Z with (offset + limit - 2 ^ 63 + 1 * 2 ^ 64)%Z by lia.
    rewrite Z.mod_add by lia. rewrite Z.mod_small by lia. lia. }
  rewrite Hend.
  destruct (Z.eqb_spec limit 0); [lia|].
  destruct (Z.gtb_spec (offset + limit - 2 ^ 64) (len items)) as [Hgt|_];
    [unfold MaxInt in *; lia|]. simpl.
  unfold slice.
  destruct (Z.leb_spec offset (offset + limit - 2 ^ 64)); [unfold MaxInt in *; lia|].
  by rewrite andb_false_r.
Qed.

(** A page is a contiguous part of the list it was cut from. *)
Lemma paginate_sublist {A : Type} (items page : list A) (offset limit : Z) :
  paginate items offset limit = Returns page -> page `sublist_of` items.
Proof.
  unfold paginate. destruct (offset >=? len items)%Z.
  - intros [= <-]. apply sublist_nil_l.
  - unfold slice. destruct (_ && _); [|done]. intros [= <-].
    etrans; [apply sublist_take|apply sublist_drop].
Qed.


(** [offset = 0] and [limit = 0] list everything that was selected. *)
Lemma paginate_everything {A : Type} (items : list A) :
  paginate items 0 0 = Returns items.
Proof.
  destruct (paginate_in_range items 0 0) as (page & -> & -> & _);
    [lia|lia|unfold MaxInt; lia|]. done.
Qed.

Lemma tool_selected_spec (groupID query : string) (t : Tool) :
  tool_selected groupID query t <->
  (groupID ≠ "" -> Tool_GroupID t = groupID) /\
  (query ≠ "" -> matchesQuery (Tool_Name t) (Tool_Description t) query).
Proof.
  unfold tool_selected.
  repeat case_bool_decide; simpl; destruct (matchesQuery _ _ _); simpl;
    intuition congruence.
Qed.

(** A group no tool of a list carries, checked by running over the list. *)
Lemma group_absent_check (l : list Tool) (groupID : string) :
  forallb (fun t => negb (bool_decide (Tool_GroupID t = groupID))) l = true ->
  forall t, t ∈ l -> Tool_GroupID t ≠ groupID.
Proof.
  intros Hall t Ht Heq. apply list_elem_of_In in Ht.
  rewrite forallb_forall in Hall. specialize (Hall t Ht).
  apply negb_true_iff, bool_decide_eq_false in Hall. done.
Qed.

(** ** Pagination (C1, C10) *)

(** C1 (amended): for every item set and all non-negative [offset] and
    [limit] whose sum is an [int], [ListTools] and [ListGroups] return,
    with a nil error, a page of length
    [min(max(total-offset,0), limit==0 ? max(total-offset,0) : limit)],
    where [total] is the number of items that pass the group and query
    filters before slicing; the page is empty when [offset >= total]
    ([total] still being that count), and [limit = 0] returns all the
    remaining items from [offset]. *)
Theorem ListTools_page_length (p : SimpleProvider) (gp : GroupProviderImpl)
    (rho : RangeOrder) (ctx : Ctx) (id query : string) (offset limit : Z) :
  range_fair rho -> (0 <= offset)%Z -> (0 <= limit)%Z -> (offset + limit <= MaxInt)%Z ->
  (exists page,
     SimpleProvider_ListTools p rho ctx id query offset limit =
       Returns (Some {| Tools := page; Tools_Total := matching_tools p id query;
                        Tools_Offset := offset; Tools_Limit := limit |}, None) /\
     len page = page_length (matching_tools p id query) offset limit /\
     (matching_tools p id query <= offset -> page = [])%Z /\
     (limit = 0%Z ->
      page = drop (Z.to_nat offset) (filter (tool_selected id query) (rho Tool (tools p)))))
  /\
  (exists page,
     GroupProviderImpl_ListGroups gp rho ctx id query offset limit =
       Returns (Some {| Groups := page; Groups_Total := matching_groups gp id query;
                        Groups_Offset := offset; Groups_Limit := limit |}, None) /\
     len page = page_length (matching_groups gp id query) offset limit /\
     (matching_groups gp id query <= offset -> page = [])%Z /\
     (limit = 0%Z ->
      page = drop (Z.to_nat offset) (filter (group_selected id query) (rho Group (groups gp))))).
Proof.
  intros Hfair Ho Hl Hsum. split.
  - rewrite ListTools_unfold. cbv zeta.
    destruct (paginate_in_range (filter (tool_selected id query) (rho Tool (tools p)))
                offset limit Ho Hl Hsum) as (page & Hpage & Hwin & Hlen).
    pose proof (selected_count (tool_selected id query) rho (tools p) Hfair) as Hcount.
    fold (registered_tools p) in Hcount. fold (matching_tools p id query) in Hcount.
    exists page. rewrite Hpage. simpl. rewrite Hcount in *. repeat split; [done| |].
    + intros Hpast. apply nil_length_inv.
      unfold page_length, len in Hlen. destruct (limit =? 0)%Z; lia.
    + intros ->. by rewrite Hwin.
  - rewrite ListGroups_unfold. cbv zeta.
    destruct (paginate_in_range (filter (group_selected id query) (rho Group (groups gp)))
                offset limit Ho Hl Hsum) as (page & Hpage & Hwin & Hlen).
    pose proof (selected_count (group_selected id query) rho (groups gp) Hfair) as Hcount.
    fold (registered_groups gp) in Hcount. fold (matching_groups gp id query) in Hcount.
    exists page. rewrite Hpage. simpl. rewrite Hcount in *. repeat split; [done| |].
    + intros Hpast. apply nil_length_inv.
      unfold page_length, len in Hlen. destruct (limit =? 0)%Z; lia.
    + intros ->. by rewrite Hwin.
Qed.

(** C10: with [offset = 1] and [limit = MaxInt], both non-negative, and
    two registered items, [offset + limit] wraps to [MinInt], the clamp
    [end > len] does not fire and the slice expression of [ListTools]
    (and of [ListGroups]) panics on its bounds. *)
Theorem pagination_slice_out_of_bounds (ctx : Ctx) :
  (0 <= 1)%Z /\ (0 <= MaxInt)%Z /\ int_add 1 MaxInt = MinInt /\
  SimpleProvider_ListTools two_tools range_sorted ctx "" "" 1 MaxInt = Panics /\
  GroupProviderImpl_ListGroups two_groups range_sorted ctx "" "" 1 MaxInt = Panics.
Proof.
  assert (Hpanic : forall (A : Type) (l : list A),
            length l = 2%nat -> paginate l 1 MaxInt = Panics).
  { intros A l Hl. apply paginate_overflow; unfold len, MaxInt; rewrite ?Hl; simpl; lia. }
  split; [lia|]. split; [by vm_compute|]. split; [by vm_compute|]. split.
  - rewrite ListTools_unfold. cbv zeta. rewrite Hpanic; [done|]. by vm_compute.
  - rewrite ListGroups_unfold. cbv zeta. rewrite Hpanic; [done|]. by vm_compute.
Qed.

(** ** Group filtering (C6) *)

(** C6: for a non-empty [group_id], every tool of a page [ListTools]
    returns is a registered tool whose [GroupID] equals [group_id], and
    [total] counts the tools of that group that pass the query filter; a
    [group_id] no registered tool carries gives, for a non-negative
    [offset], an empty page with [total = 0] and a nil error; on the
    tools [{add:math, uppercase:string}], listing group ["math"] returns
    only [add]. *)
Theorem ListTools_group_filter (p : SimpleProvider) (rho : RangeOrder) (ctx : Ctx)
    (groupID query : string) (offset limit : Z) :
  groupID ≠ "" -> range_fair rho ->
  (forall resp err,
     SimpleProvider_ListTools p rho ctx groupID query offset limit = Returns (resp, err) ->
     err = None /\
     exists r, resp = Some r /\
       Forall (fun t => t ∈ registered_tools p /\ Tool_GroupID t = groupID) (Tools r) /\
       Tools_Total r =
         len (filter (fun t => Tool_GroupID t = groupID /\ tool_selected "" query t)
                     (registered_tools p)))
  /\
  ((0 <= offset)%Z ->
   (forall t, t ∈ registered_tools p -> Tool_GroupID t ≠ groupID) ->
   SimpleProvider_ListTools p rho ctx groupID query offset limit =
     Returns (Some {| Tools := []; Tools_Total := 0;
                      Tools_Offset := offset; Tools_Limit := limit |}, None))
  /\
  SimpleProvider_ListTools two_tools rho ctx "math" "" 0 0 =
    Returns (Some {| Tools := [add_tool]; Tools_Total := 1;
                     Tools_Offset := 0; Tools_Limit := 0 |}, None).
Proof.
  intros Hid Hfair.
  assert (Hsel : forall l : list Tool,
    filter (tool_selected groupID query) l =
    filter (fun t => Tool_GroupID t = groupID /\ tool_selected "" query t) l).
  { intros l. apply list_filter_iff. intros t.
    rewrite !tool_selected_spec. intuition congruence. }
  split; [|split].
  - intros resp err. rewrite ListTools_unfold. cbv zeta.
    destruct (paginate _ offset limit) as [page|] eqn:Hpage; [|done].
    intros [= <- <-]. split; [done|]. eexists. split; [done|]. simpl. split.
    + apply Forall_forall. intros t Ht.
      apply paginate_sublist, sublist_subseteq in Hpage. apply Hpage in Ht.
      apply list_elem_of_filter in Ht as [Ht Hin].
      apply tool_selected_spec in Ht as [Hg _]. split; [|by apply Hg].
      unfold registered_tools. by rewrite <- (Hfair Tool (tools p)).
    + rewrite (selected_count _ rho (tools p) Hfair).
      fold (registered_tools p). by rewrite Hsel.
  - intros Ho Hnone. rewrite ListTools_unfold. cbv zeta.
    assert (Hempty : filter (tool_selected groupID query) (rho Tool (tools p)) = []).
    { apply elem_of_nil_inv. intros t Ht.
      apply list_elem_of_filter in Ht as [Ht Hin].
      apply tool_selected_spec in Ht as [Hg _].
      apply (Hnone t); [|by apply Hg].
      unfold registered_tools. by rewrite <- (Hfair Tool (tools p)). }
    rewrite Hempty. rewrite paginate_past_end; [done|]. unfold len. simpl. lia.
  - rewrite ListTools_unfold. cbv zeta.
    assert (Honly : filter (tool_selected "math" "") (rho Tool (tools two_tools)) = [add_tool]).
    { apply Permutation_singleton_r. rewrite (Hfair Tool (tools two_tools)).
      by vm_compute. }
    rewrite Honly. by rewrite paginate_everything.
Qed.

(** ** Repeated listings (C7) *)


(** ** Query matching (C5) *)

(** C5: [matchesQuery] holds exactly when the lower-cased query is a
    substring of the lower-cased name or of the lower-cased description;
    a full listing ([offset = 0], [limit = 0], no group) holds exactly the
    registered tools that match in this sense when the query is not
    empty, and every registered tool when it is empty; the query ["ADD"]
    matches an item named ["add two numbers"]. *)
Theorem query_matches_lowercase_substring (p : SimpleProvider) (rho : RangeOrder)
    (ctx : Ctx) (name description query : string) :
  range_fair rho ->
  (matchesQuery name description query <->
   substring_of (ToLower query) (ToLower name) \/
   substring_of (ToLower query) (ToLower description))
  /\
  (exists page,
     SimpleProvider_ListTools p rho ctx "" query 0 0 =
       Returns (Some {| Tools := page; Tools_Total := len page;
                        Tools_Offset := 0; Tools_Limit := 0 |}, None) /\
     (forall t, t ∈ page <->
        t ∈ registered_tools p /\
        (query ≠ "" ->
         substring_of (ToLower query) (ToLower (Tool_Name t)) \/
         substring_of (ToLower query) (ToLower (Tool_Description t)))) /\
     (query = "" -> page ≡ₚ registered_tools p))
  /\
  matchesQuery "add two numbers" "" "ADD" = true.
Proof.
  intros Hfair. split; [apply matchesQuery_spec|]. split; [|done].
  rewrite ListTools_unfold. cbv zeta. rewrite paginate_everything.
  eexists. split; [done|]. split.
  - intros t. rewrite list_elem_of_filter, tool_selected_spec.
    unfold registered_tools. rewrite (Hfair Tool (tools p)).
    rewrite matchesQuery_spec. intuition congruence.
  - intros ->. unfold registered_tools. rewrite <- (Hfair Tool (tools p)).
    induction (rho Tool (tools p)) as [|t l IH]; [done|].
    rewrite filter_cons_True by done. by rewrite IH.
Qed.

(** ** Tool execution (C3, C4) *)

(** [RegisterTool] files the executor under the tool's name. *)
Lemma RegisterTool_executor (p : SimpleProvider) (tool : Tool) (executor : ToolExecutor) :
  executors (SimpleProvider_RegisterTool p tool executor) !! Tool_Name tool = Some executor.
Proof. unfold SimpleProvider_RegisterTool. simpl. apply lookup_insert_eq. Qed.


(** C3 (amended): when the executor registered under a name fails with
    an error whose [Error()] method returns a description, [ExecuteTool]
    returns, with a nil error of its own, a response whose error has code
    ["execution_error"] and that description as message, and whose result
    and meta are unset; nothing recovers a panic, so a failure whose
    [Error()] itself panics (a nil [*ErrorDetail] held by the interface)
    leaves [ExecuteTool] as a panic. *)
Theorem ExecuteTool_executor_failure (p : SimpleProvider) (ctx : Ctx)
    (toolName : string) (params : Params)
    (run : Ctx -> Params -> outcome (Value * option error))
    (result : Value) (err : error) :
  executors p !! toolName = Some (Some run) ->
  run ctx params = Returns (result, Some err) ->
  (forall description, Error err = Returns description ->
     SimpleProvider_ExecuteTool p ctx toolName params =
       Returns (Some {| Response_Result := VNil;
                        Response_Error := Some {| Code := "execution_error";
                                                  Message := description |};
                        Response_Meta := None |}, None)) /\
  (Error err = Panics ->
     SimpleProvider_ExecuteTool p ctx toolName params = Panics).
Proof.
  intros Hreg Hrun. unfold SimpleProvider_ExecuteTool.
  rewrite Hreg, Hrun. simpl. split.
  - by intros description ->.
  - by intros ->.
Qed.

(** What C3 does not cover: nothing recovers from an executor that
    panics, nor from a nil executor; the panic leaves [ExecuteTool]. *)
Lemma ExecuteTool_executor_panic (p : SimpleProvider) (ctx : Ctx)
    (toolName : string) (params : Params) (executor : ToolExecutor) :
  executors p !! toolName = Some executor ->
  match executor with
  | Some run => run ctx params = Panics
  | None => True
  end ->
  SimpleProvider_ExecuteTool p ctx toolName params = Panics.
Proof.
  intros Hreg Hrun. unfold SimpleProvider_ExecuteTool, ToolExecutor in *.
  rewrite Hreg. destruct executor as [run|]; [|done]. by rewrite Hrun.
Qed.

(** C4: for a name with no registered executor, and any parameter map,
    [ExecuteTool] returns, with a nil error of its own, a response whose
    error has code ["tool_not_found"] and whose result is unset. *)
Theorem ExecuteTool_unknown_tool (p : SimpleProvider) (ctx : Ctx)
    (toolName : string) (params : Params) :
  executors p !! toolName = None ->
  SimpleProvider_ExecuteTool p ctx toolName params =
    Returns (Some {| Response_Result := VNil;
                     Response_Error := Some {| Code := "tool_not_found";
                                               Message := "Tool not found: " +:+ toolName |};
                     Response_Meta := None |}, None).
Proof.
  intros Hreg. unfold SimpleProvider_ExecuteTool, ToolExecutor in *. by rewrite Hreg.
Qed.

(** ** Meta responses (C8) *)

(** C8: a response to which [WithMeta] attaches [NewMetaToolsAdded tools]
    carries a meta of type ["tools_added"] whose data holds exactly the
    given tools, in order and unchanged, under the key ["tools"]; result
    and error of the response are untouched. *)
Theorem tools_added_round_trip (ts : list Tool) (r : ExecuteResponse) :
  let r' := ExecuteResponse_WithMeta r (Some (NewMetaToolsAdded ts)) in
  meta_data_tools r' = Some ts /\
  Meta_Type <$> Response_Meta r' = Some (VString "tools_added") /\
  Response_Meta r' = Some {| Meta_Type := VString "tools_added";
                            Meta_Data := VMap {[ "tools" := VTools ts ]} |} /\
  Response_Result r' = Response_Result r /\
  Response_Error r' = Response_Error r.
Proof.
  cbv zeta. unfold meta_data_tools, ExecuteResponse_WithMeta, NewMetaToolsAdded. simpl.
  rewrite lookup_insert_eq. by rewrite insert_empty.
Qed.

(** ** Capability tiers at the server (C2, C9) *)

(** C2 (amended): against a provider of the base tier only, the group
    use cases ([list_groups], the group-scoped listing and execution) do
    not panic and call no provider method: they return the plain Go
    error ["groups not supported"] through the use case's error result,
    leaving the output as they found it. *)
Theorem group_usecases_on_base_tier (P : Type) (methods : ToolProvider P) (p : P)
    (rho : RangeOrder) (ctx : Ctx)
    (groupsInput : ListGroupsInput) (groupsOutput : GroupsResponse)
    (toolsInput : ListGroupToolsInput) (toolsOutput : ToolsResponse)
    (executeInput : ExecuteGroupToolInput) (executeOutput : ExecuteResponse) :
  let s := {| provider := baseTier P methods p |} in
  Server_listGroupsUsecase s rho ctx groupsInput groupsOutput =
    Returns (groupsOutput, Some (errorString "groups not supported")) /\
  Server_listGroupToolsUsecase s rho ctx toolsInput toolsOutput =
    Returns (toolsOutput, Some (errorString "groups not supported")) /\
  Server_executeGroupToolUsecase s ctx executeInput executeOutput =
    Returns (executeOutput, Some (errorString "groups not supported")) /\
  Error (errorString "groups not supported") = Returns "groups not supported".
Proof. done. Qed.

(** C9: for a provider of the group tier, the group-scoped execution
    route gives exactly what the plain execution route gives for the
    same tool name and body, whatever the group ID of the path; so a tool
    of group ["math"] runs through the path of group ["string"]. *)
Theorem executeGroupTool_same_as_executeTool (P : Type) (methods : GroupProvider P)
    (p : P) (ctx : Ctx) (id name : string) (params1 params2 body : Params)
    (output : ExecuteResponse) :
  let s := {| provider := groupTier P methods p |} in
  Server_executeGroupToolUsecase s ctx
    {| ExecuteGroupTool_ID := id; ExecuteGroupTool_Name := name;
       ExecuteGroupTool_Params := params1; ExecuteGroupTool_Body := body |} output =
  Server_executeToolUsecase s ctx
    {| ExecuteTool_Name := name; ExecuteTool_Params := params2;
       ExecuteTool_Body := body |} output
  /\
  Server_executeGroupToolUsecase group_server ctx
    {| ExecuteGroupTool_ID := "string"; ExecuteGroupTool_Name := "add";
       ExecuteGroupTool_Params := None; ExecuteGroupTool_Body := None |} output =
  Returns ({| Response_Result := VMap ∅; Response_Error := None;
              Response_Meta := None |}, None).
Proof. split; [done|]. by vm_compute. Qed.

(** * Further properties of the code *)

(** ** The registry of tools *)

Lemma registry_built_names (p : SimpleProvider) :
  registry_built p ->
  (forall name, is_Some (tools p !! name) <-> is_Some (executors p !! name)) /\
  (forall name t, tools p !! name = Some t -> Tool_Name t = name).
Proof.
  induction 1 as [caps|p tool executor _ [IHdom IHname]]; simpl.
  - split; [|done]. intros name. by rewrite !lookup_empty.
  - split.
    + intros name. destruct (decide (Tool_Name tool = name)) as [<-|Hne].
      * rewrite !lookup_insert_eq. split; eauto.
      * rewrite !lookup_insert_ne by done. apply IHdom.
    + intros name t. destruct (decide (Tool_Name tool = name)) as [<-|Hne].
      * rewrite lookup_insert_eq. by intros [= <-].
      * rewrite lookup_insert_ne by done. apply IHname.
Qed.

(** In a registry whose tools are filed under their own names, the
    names of the registered tools are pairwise distinct. *)
Lemma registered_names_NoDup (p : SimpleProvider) :
  (forall name t, tools p !! name = Some t -> Tool_Name t = name) ->
  NoDup (Tool_Name <$> registered_tools p).
Proof.
  intros Hname. unfold registered_tools.
  assert (Heq : Tool_Name <$> (map_to_list (tools p)).*2 = (map_to_list (tools p)).*1).
  { rewrite <- list_fmap_compose. apply list_fmap_ext.
    intros i [name t] Hi. simpl. apply Hname.
    apply elem_of_map_to_list. eapply list_elem_of_lookup_2, Hi. }
  rewrite Heq. apply NoDup_fst_map_to_list.
Qed.

(** Registry invariant: in a provider made by [NewSimpleProvider] and
    any number of [RegisterTool] calls, a name has a tool exactly when it
    has an executor, every tool is filed under its own name, and no page
    [ListTools] returns, for any arguments, lists two tools of the same
    name. *)
Theorem registry_invariant (p : SimpleProvider) (rho : RangeOrder) (ctx : Ctx)
    (groupID query : string) (offset limit : Z) :
  registry_built p -> range_fair rho ->
  (forall name, is_Some (tools p !! name) <-> is_Some (executors p !! name)) /\
  (forall name t, tools p !! name = Some t -> Tool_Name t = name) /\
  (forall resp err,
     SimpleProvider_ListTools p rho ctx groupID query offset limit = Returns (Some resp, err) ->
     NoDup (Tool_Name <$> Tools resp)).
Proof.
  intros Hbuilt Hfair. destruct (registry_built_names p Hbuilt) as [Hdom Hname].
  split; [done|]. split; [done|].
  intros resp err. rewrite ListTools_unfold. cbv zeta.
  destruct (paginate _ offset limit) as [page|] eqn:Hpage; [|done].
  intros [= <- _]. simpl.
  apply paginate_sublist in Hpage.
  assert (Hsub : Tool_Name <$> page `sublist_of` Tool_Name <$> rho Tool (tools p)).
  { apply fmap_sublist. etrans; [exact Hpage|apply sublist_filter]. }
  refine (sublist_NoDup _ _ _ Hsub).
  rewrite (Hfair Tool (tools p)). by apply registered_names_NoDup.
Qed.

(** Registration and execution compose: a call of [RegisterTool] changes
    what [ExecuteTool] does for the tool's name only, where the executor
    just registered runs and the answer is never [tool_not_found]; and
    registering a name again replaces the earlier tool and executor. *)
Theorem RegisterTool_then_ExecuteTool (p : SimpleProvider) (tool tool' : Tool)
    (executor executor' : ToolExecutor) (ctx : Ctx) (name : string) (params : Params) :
  (name ≠ Tool_Name tool ->
   SimpleProvider_ExecuteTool (SimpleProvider_RegisterTool p tool executor) ctx name params =
   SimpleProvider_ExecuteTool p ctx name params) /\
  (forall run result,
     executor = Some run -> run ctx params = Returns (result, None) ->
     SimpleProvider_ExecuteTool (SimpleProvider_RegisterTool p tool executor) ctx
       (Tool_Name tool) params =
     Returns (Some {| Response_Result := result; Response_Error := None;
                      Response_Meta := None |}, None)) /\
  (Tool_Name tool' = Tool_Name tool ->
   SimpleProvider_RegisterTool (SimpleProvider_RegisterTool p tool executor) tool' executor' =
   SimpleProvider_RegisterTool p tool' executor').
Proof.
  unfold SimpleProvider_ExecuteTool, SimpleProvider_RegisterTool, ToolExecutor. simpl.
  split; [|split].
  - intros Hne. by rewrite lookup_insert_ne.
  - intros run result -> Hrun. rewrite lookup_insert_eq, Hrun. done.
  - intros ->. by rewrite !insert_insert_eq.
Qed.

(** The shape of every answer of [ExecuteTool]: when it returns, its own
    error is nil, the response is not nil and carries no meta, and a
    response with an error has code [tool_not_found] or [execution_error]
    and no result; when it panics, a registered executor is nil, or has
    itself panicked, or has returned an error whose [Error()] panics. *)
Theorem ExecuteTool_answer_shape (p : SimpleProvider) (ctx : Ctx)
    (toolName : string) (params : Params) :
  match SimpleProvider_ExecuteTool p ctx toolName params with
  | Returns (Some r, None) =>
      Response_Meta r = None /\
      match Response_Error r with
      | Some e =>
          Response_Result r = VNil /\
          (Code e = "tool_not_found" /\ executors p !! toolName = None \/
           Code e = "execution_error" /\ is_Some (executors p !! toolName))
      | None => is_Some (executors p !! toolName)
      end
  | Returns _ => False
  | Panics =>
      exists executor, executors p !! toolName = Some executor /\
        match executor with
        | Some run =>
            run ctx params = Panics \/
            exists result err,
              run ctx params = Returns (result, Some err) /\ Error err = Panics
        | None => True
        end
  end.
Proof.
  unfold SimpleProvider_ExecuteTool, ToolExecutor.
  destruct (_ !! _) as [[run|]|] eqn:Hreg; simpl.
  - unfold mbind, outcome_bind.
    destruct (run ctx params) as [[result [err|]]|] eqn:Hrun; simpl.
    + destruct (Error err) as [description|] eqn:Herr; simpl.
      * split; [done|]. split; [done|]. right. split; [done|]. by eexists.
      * exists (Some run). split; [done|]. right. by exists result, err.
    + split; [done|]. by eexists.
    + exists (Some run). split; [done|]. by left.
  - by exists None.
  - split; [done|]. split; [done|]. by left.
Qed.

(** ** The registry of groups *)

(** [GetGroup] after [RegisterGroup]: the group just registered is found
    under its ID, other IDs answer as before, and an unregistered ID
    gives a nil group with the error [group_not_found], whose text is
    ["group_not_found: Group not found: <id>"]. *)
Theorem GetGroup_after_RegisterGroup (p : GroupProviderImpl) (group : Group)
    (ctx : Ctx) (groupID : string) :
  GroupProviderImpl_GetGroup (GroupProviderImpl_RegisterGroup p group) ctx (Group_ID group) =
    Returns (Some group, None) /\
  (groupID ≠ Group_ID group ->
   GroupProviderImpl_GetGroup (GroupProviderImpl_RegisterGroup p group) ctx groupID =
   GroupProviderImpl_GetGroup p ctx groupID) /\
  (groups p !! groupID = None ->
   exists e,
     GroupProviderImpl_GetGroup p ctx groupID = Returns (None, Some e) /\
     e = errorDetail (Some {| Code := "group_not_found";
                              Message := "Group not found: " +:+ groupID |}) /\
     Error e = Returns ("group_not_found: Group not found: " +:+ groupID)).
Proof.
  unfold GroupProviderImpl_GetGroup, GroupProviderImpl_RegisterGroup. simpl.
  split; [|split].
  - by rewrite lookup_insert_eq.
  - intros Hne. by rewrite lookup_insert_ne.
  - intros ->. eexists. split; [done|]. split; [done|]. done.
Qed.

Lemma group_selected_spec (parentID query : string) (g : Group) :
  group_selected parentID query g <->
  (parentID ≠ "" -> Group_ParentID g = parentID) /\
  (query ≠ "" -> matchesQuery (Group_Name g) (Group_Description g) query).
Proof.
  unfold group_selected.
  repeat case_bool_decide; simpl; destruct (matchesQuery _ _ _); simpl;
    intuition congruence.
Qed.

(** Sibling of the group filter of [ListTools]: for a non-empty
    [parent_id], every group of a page [ListGroups] returns is a
    registered group whose [ParentID] equals it, and [total] counts the
    children that pass the query; a parent without registered children
    gives, for a non-negative [offset], an empty page and [total = 0]. *)
Theorem ListGroups_parent_filter (p : GroupProviderImpl) (rho : RangeOrder) (ctx : Ctx)
    (parentID query : string) (offset limit : Z) :
  parentID ≠ "" -> range_fair rho ->
  (forall resp err,
     GroupProviderImpl_ListGroups p rho ctx parentID query offset limit = Returns (resp, err) ->
     err = None /\
     exists r, resp = Some r /\
       Forall (fun g => g ∈ registered_groups p /\ Group_ParentID g = parentID) (Groups r) /\
       Groups_Total r =
         len (filter (fun g => Group_ParentID g = parentID /\ group_selected "" query g)
                     (registered_groups p)))
  /\
  ((0 <= offset)%Z ->
   (forall g, g ∈ registered_groups p -> Group_ParentID g ≠ parentID) ->
   GroupProviderImpl_ListGroups p rho ctx parentID query offset limit =
     Returns (Some {| Groups := []; Groups_Total := 0;
                      Groups_Offset := offset; Groups_Limit := limit |}, None)).
Proof.
  intros Hid Hfair.
  assert (Hsel : forall l : list Group,
    filter (group_selected parentID query) l =
    filter (fun g => Group_ParentID g = parentID /\ group_selected "" query g) l).
  { intros l. apply list_filter_iff. intros g.
    rewrite !group_selected_spec. intuition congruence. }
  split.
  - intros resp err. rewrite ListGroups_unfold. cbv zeta.
    destruct (paginate _ offset limit) as [page|] eqn:Hpage; [|done].
    intros [= <- <-]. split; [done|]. eexists. split; [done|]. simpl. split.
    + apply Forall_forall. intros g Hg.
      apply paginate_sublist, sublist_subseteq in Hpage. apply Hpage in Hg.
      apply list_elem_of_filter in Hg as [Hg Hin].
      apply group_selected_spec in Hg as [Hg _]. split; [|by apply Hg].
      unfold registered_groups. by rewrite <- (Hfair Group (groups p)).
    + rewrite (selected_count _ rho (groups p) Hfair).
      fold (registered_groups p). by rewrite Hsel.
  - intros Ho Hnone. rewrite ListGroups_unfold. cbv zeta.
    assert (Hempty : filter (group_selected parentID query) (rho Group (groups p)) = []).
    { apply elem_of_nil_inv. intros g Hg.
      apply list_elem_of_filter in Hg as [Hg Hin].
      apply group_selected_spec in Hg as [Hg _].
      apply (Hnone g); [|by apply Hg].
      unfold registered_groups. by rewrite <- (Hfair Group (groups p)). }
    rewrite Hempty. rewrite paginate_past_end; [done|]. unfold len. simpl. lia.
Qed.

(** ** More on pagination *)

Lemma paginate_tiles {A : Type} (items : list A) (offset k l : Z) :
  (0 <= offset)%Z -> (0 < k)%Z -> (0 <= l)%Z -> (offset + k + l <= MaxInt)%Z ->
  exists page1 page2,
    paginate items offset k = Returns page1 /\
    paginate items (offset + k) l = Returns page2 /\
    paginate items offset (if (l =? 0)%Z then 0 else k + l) = Returns (page1 ++ page2).
Proof.
  intros Ho Hk Hl Hsum.
  destruct (paginate_in_range items offset k) as (page1 & H1 & -> & _); [lia..|].
  destruct (paginate_in_range items (offset + k) l) as (page2 & H2 & -> & _); [lia..|].
  do 2 eexists. split; [exact H1|]. split; [exact H2|].
  assert (Hdrop : drop (Z.to_nat (offset + k)) items =
                  drop (Z.to_nat k) (drop (Z.to_nat offset) items)).
  { rewrite drop_drop. f_equal. lia. }
  destruct (Z.eqb_spec k 0) as [?|_]; [lia|].
  destruct (Z.eqb_spec l 0) as [->|Hne].
  - destruct (paginate_in_range items offset 0) as (page & H & -> & _);
      [lia|lia|unfold MaxInt in *; lia|].
    simpl in *. rewrite H. f_equal. by rewrite Hdrop, take_drop.
  - destruct (paginate_in_range items offset (k + l)) as (page & H & -> & _); [lia..|].
    destruct (Z.eqb_spec (k + l) 0) as [?|_]; [lia|].
    rewrite H. f_equal. rewrite Hdrop, take_take_drop. f_equal. lia.
Qed.

(** Consecutive pages tile the listing: for one visiting order of the
    registry, the page at [offset] of [k > 0] tools followed by the next
    page of [l] tools (or, for [l = 0], by all the rest) is the page at
    [offset] of [k + l] tools (of all the rest), and the three calls
    report the same [total]. *)
Theorem ListTools_pages_tile (p : SimpleProvider) (rho : RangeOrder) (ctx : Ctx)
    (groupID query : string) (offset k l : Z) :
  (0 <= offset)%Z -> (0 < k)%Z -> (0 <= l)%Z -> (offset + k + l <= MaxInt)%Z ->
  exists page1 page2 total,
    SimpleProvider_ListTools p rho ctx groupID query offset k =
      Returns (Some {| Tools := page1; Tools_Total := total;
                       Tools_Offset := offset; Tools_Limit := k |}, None) /\
    SimpleProvider_ListTools p rho ctx groupID query (offset + k) l =
      Returns (Some {| Tools := page2; Tools_Total := total;
                       Tools_Offset := offset + k; Tools_Limit := l |}, None) /\
    SimpleProvider_ListTools p rho ctx groupID query offset
        (if (l =? 0)%Z then 0 else k + l) =
      Returns (Some {| Tools := page1 ++ page2; Tools_Total := total;
                       Tools_Offset := offset;
                       Tools_Limit := if (l =? 0)%Z then 0 else k + l |}, None).
Proof.
  intros Ho Hk Hl Hsum. rewrite !ListTools_unfold. cbv zeta.
  destruct (paginate_tiles (filter (tool_selected groupID query) (rho Tool (tools p)))
              offset k l Ho Hk Hl Hsum) as (page1 & page2 & -> & -> & ->).
  exists page1, page2. by eexists.
Qed.

Lemma paginate_negative_offset {A : Type} (items : list A) (offset limit : Z) :
  (offset < 0)%Z -> paginate items offset limit = Panics.
Proof.
  intros Ho. pose proof (len_nonneg items). unfold paginate, slice.
  destruct (Z.geb_spec offset (len items)); [lia|]. cbv zeta.
  destruct (Z.leb_spec 0 offset); [lia|]. done.
Qed.

Lemma paginate_negative_limit {A : Type} (items : list A) (offset limit : Z) :
  (0 <= offset < len items)%Z -> (offset <= MaxInt)%Z -> (MinInt <= limit < 0)%Z ->
  paginate items offset limit = Panics.
Proof.
  intros Ho Hmax Hl. unfold paginate, slice, int_add.
  destruct (Z.geb_spec offset (len items)); [lia|]. cbv zeta.
  rewrite int_wrap_id by (unfold MinInt, MaxInt in *; lia).
  destruct (Z.eqb_spec limit 0); [lia|].
  destruct (Z.gtb_spec (offset + limit) (len items)); [lia|]. simpl.
  destruct (Z.leb_spec offset (offset + limit)); [lia|].
  by rewrite andb_false_r.
Qed.

(** Nothing rejects a negative argument: a negative [offset] makes
    [ListTools] and [ListGroups] (and hence the listing use case of the
    server) panic on the slice bounds, whatever the registry holds; so
    does a negative [limit] when [offset] is the position of an item,
    while past the last item the page is empty for any [limit]. *)
Theorem negative_arguments_panic (p : SimpleProvider) (gp : GroupProviderImpl)
    (rho : RangeOrder) (ctx : Ctx) (id query : string) (offset limit : Z)
    (output : ToolsResponse) :
  (offset < 0)%Z ->
  SimpleProvider_ListTools p rho ctx id query offset limit = Panics /\
  GroupProviderImpl_ListGroups gp rho ctx id query offset limit = Panics /\
  Server_listToolsUsecase {| provider := baseTier SimpleProvider _ p |} rho ctx
    {| ListTools_Q := query; ListTools_Offset := offset; ListTools_Limit := limit |}
    output = Panics /\
  (forall offset',
     range_fair rho -> (0 <= offset' < matching_tools p id query)%Z ->
     (offset' <= MaxInt)%Z -> (MinInt <= limit < 0)%Z ->
     SimpleProvider_ListTools p rho ctx id query offset' limit = Panics) /\
  (forall offset',
     range_fair rho -> (matching_tools p id query <= offset')%Z ->
     SimpleProvider_ListTools p rho ctx id query offset' limit =
       Returns (Some {| Tools := []; Tools_Total := matching_tools p id query;
                        Tools_Offset := offset'; Tools_Limit := limit |}, None)).
Proof.
  intros Ho. split; [|split; [|split; [|split]]].
  - rewrite ListTools_unfold. cbv zeta. by rewrite paginate_negative_offset.
  - rewrite ListGroups_unfold. cbv zeta. by rewrite paginate_negative_offset.
  - unfold Server_listToolsUsecase. simpl.
    rewrite ListTools_unfold. cbv zeta. by rewrite paginate_negative_offset.
  - intros offset' Hfair Hin Hmax Hl. rewrite ListTools_unfold. cbv zeta.
    rewrite paginate_negative_limit; [done| |done|done].
    rewrite (selected_count _ rho (tools p) Hfair). exact Hin.
  - intros offset' Hfair Hpast. rewrite ListTools_unfold. cbv zeta.
    rewrite (selected_count _ rho (tools p) Hfair).
    fold (registered_tools p). fold (matching_tools p id query).
    rewrite paginate_past_end; [done|].
    rewrite (selected_count _ rho (tools p) Hfair). exact Hpast.
Qed.

Lemma int_wrap_le (z : Z) : (- 2 ^ 63 <= z)%Z -> (int_wrap z <= z)%Z.
Proof.
  intros Hz. unfold int_wrap.
  pose proof (Z.mod_le (z + 2 ^ 63) (2 ^ 64)). lia.
Qed.

Lemma paginate_length_le {A : Type} (items page : list A) (offset limit : Z) :
  (0 < limit)%Z -> paginate items offset limit = Returns page -> (len page <= limit)%Z.
Proof.
  intros Hl. unfold paginate.
  destruct (Z.geb_spec offset (len items)) as [_|Hlt].
  - intros [= <-]. unfold len. simpl. lia.
  - cbv zeta. intros Hslice. pose proof (slice_length _ _ _ _ Hslice) as Hlen.
    unfold slice in Hslice. destruct (_ && _) eqn:Hc; [|done].
    rewrite !andb_true_iff in Hc. destruct Hc as [[Ho Hoe] _].
    apply Z.leb_le in Ho, Hoe.
    pose proof (int_wrap_le (offset + limit)) as Hw. unfold int_add in *.
    destruct (Z.eqb_spec limit 0); [lia|]. simpl in *.
    destruct (Z.gtb_spec (int_wrap (offset + limit)) (len items)); lia.
Qed.

Lemma filter_everything {A : Type} (keep : A -> bool) (l : list A) :
  (forall x, keep x) -> filter keep l = l.
Proof.
  intros Hall. induction l as [|x l IH]; [done|].
  rewrite filter_cons_True by apply Hall. by rewrite IH.
Qed.

Lemma matching_tools_le_size (p : SimpleProvider) (groupID query : string) :
  (0 <= matching_tools p groupID query <= Z.of_nat (size (tools p)))%Z.
Proof.
  unfold matching_tools, registered_tools, len.
  pose proof (length_filter (tool_selected groupID query) (map_to_list (tools p)).*2) as Hle.
  rewrite length_fmap, length_map_to_list in Hle. lia.
Qed.

(** Bounds on every answer of [ListTools], for any arguments: it never
    returns an error or a nil response; the page is never longer than
    [total], nor than a positive [limit]; [total] is the number of
    registered tools that pass the filters, at most the size of the
    registry and exactly that size when both filters are empty; and it
    panics only on a negative [offset], a negative [limit] or a sum
    [offset + limit] beyond [MaxInt]. *)
Theorem ListTools_answer_bounds (p : SimpleProvider) (rho : RangeOrder) (ctx : Ctx)
    (groupID query : string) (offset limit : Z) :
  range_fair rho ->
  match SimpleProvider_ListTools p rho ctx groupID query offset limit with
  | Returns (Some r, None) =>
      Tools_Total r = matching_tools p groupID query /\
      (len (Tools r) <= Tools_Total r <= Z.of_nat (size (tools p)))%Z /\
      (0 < limit -> len (Tools r) <= limit)%Z /\
      (groupID = "" -> query = "" -> Tools_Total r = Z.of_nat (size (tools p))) /\
      Tools_Offset r = offset /\ Tools_Limit r = limit
  | Returns _ => False
  | Panics => (offset < 0)%Z \/ (limit < 0)%Z \/ (MaxInt < offset + limit)%Z
  end.
Proof.
  intros Hfair. rewrite ListTools_unfold. cbv zeta.
  rewrite (selected_count _ rho (tools p) Hfair).
  fold (registered_tools p). fold (matching_tools p groupID query).
  destruct (paginate _ offset limit) as [page|] eqn:Hpage; simpl.
  - split; [done|]. split; [|split; [|split; [|done]]].
    + split; [|apply matching_tools_le_size].
      apply paginate_sublist, sublist_length in Hpage.
      pose proof (selected_count (tool_selected groupID query) rho (tools p) Hfair) as Hc.
      unfold matching_tools, registered_tools, len in *. lia.
    + intros Hl. by eapply paginate_length_le.
    + intros -> ->. unfold matching_tools, registered_tools, len.
      rewrite filter_everything by (intros t; by rewrite tool_selected_spec).
      by rewrite length_fmap, length_map_to_list.
  - destruct (Z.lt_ge_cases offset 0) as [?|Ho]; [by left|].
    destruct (Z.lt_ge_cases limit 0) as [?|Hl]; [by right; left|].
    destruct (Z.lt_ge_cases MaxInt (offset + limit)) as [?|Hsum]; [by right; right|].
    destruct (paginate_in_range (filter (tool_selected groupID query) (rho Tool (tools p)))
                offset limit Ho Hl Hsum) as (page & Hp & _).
    congruence.
Qed.

(** ** More on query matching *)

Lemma string_app_assoc (a b c : string) : (a +:+ b) +:+ c = a +:+ b +:+ c.
Proof.
  induction a as [|x a IH]; [done|].
  change (String x ((a +:+ b) +:+ c) = String x (a +:+ b +:+ c)). by rewrite IH.
Qed.

Lemma substring_of_trans (a b c : string) :
  substring_of a b -> substring_of b c -> substring_of a c.
Proof.
  intros (pre1 & post1 & ->) (pre2 & post2 & ->).
  exists (pre2 +:+ pre1), (post1 +:+ post2).
  by rewrite !string_app_assoc.
Qed.

Lemma filter_length_mono {A : Type} (P Q : A -> bool) (l : list A) :
  (forall x, P x -> Q x) -> length (filter P l) <= length (filter Q l).
Proof.
  intros HPQ. induction l as [|x l IH]; [done|].
  destruct (P x) eqn:HP.
  - rewrite !filter_cons_True; [simpl; lia| |by rewrite HP].
    apply HPQ. by rewrite HP.
  - rewrite (filter_cons_False P) by (rewrite HP; simpl; tauto).
    destruct (Q x) eqn:HQ.
    + rewrite filter_cons_True by (by rewrite HQ). simpl. lia.
    + rewrite filter_cons_False by (rewrite HQ; simpl; tauto). done.
Qed.

(** Shortening the query never loses a match: when the lower-cased [q']
    is a substring of the lower-cased [q], everything [q] matches is
    matched by [q'], so a listing for [q'] counts at least as many tools
    as one for [q]; and [matchesQuery] itself accepts the empty query for
    every item. *)
Theorem shorter_query_matches_more (p : SimpleProvider) (groupID : string)
    (name description q q' : string) :
  substring_of (ToLower q') (ToLower q) ->
  (matchesQuery name description q -> matchesQuery name description q') /\
  (matching_tools p groupID q <= matching_tools p groupID q')%Z /\
  matchesQuery name description "" = true.
Proof.
  intros Hsub.
  assert (Hempty : forall n d, matchesQuery n d "" = true).
  { intros n d. unfold matchesQuery. cbv zeta.
    change (ToLower "") with EmptyString.
    assert (Hc : forall s, Contains s EmptyString = true) by (by intros []).
    by rewrite Hc. }
  assert (Hmono : forall n d, matchesQuery n d q -> matchesQuery n d q').
  { intros n d. rewrite !matchesQuery_spec.
    intros [H|H]; [left|right]; eapply substring_of_trans; eauto. }
  split; [apply Hmono|]. split; [|apply Hempty].
  unfold matching_tools, len. apply inj_le, filter_length_mono.
  intros t. rewrite !tool_selected_spec. intros [Hg Hq]. split; [done|].
  intros _. destruct (decide (q = "")) as [->|Hne].
  - apply Hmono. by rewrite Hempty.
  - by apply Hmono, Hq.
Qed.

(** ** The server's use cases and routes *)

Ltac in_list := repeat first [apply list_elem_of_here | apply list_elem_of_further].

(** Over HTTP a limit of [0] is not "unlimited": the listing use cases
    replace it by their default (100 tools, 50 groups) before they call
    the provider, so for non-negative [offset] and [limit] whose sum
    [offset + effective limit] is an [int] (at most [MaxInt]) the page
    holds [min(max(total - offset, 0), effective limit)] items and the
    response reports the effective limit. *)
Theorem listing_usecases_default_limit (p : SimpleProvider) (gp : GroupProviderImpl)
    (rho : RangeOrder) (ctx : Ctx) (q parentID : string) (offset limit : Z)
    (toolsOutput : ToolsResponse) (groupsOutput : GroupsResponse) :
  range_fair rho -> (0 <= offset)%Z -> (0 <= limit)%Z ->
  (offset + effective_limit limit 100 <= MaxInt)%Z ->
  (exists page,
     Server_listToolsUsecase {| provider := baseTier SimpleProvider _ p |} rho ctx
       {| ListTools_Q := q; ListTools_Offset := offset; ListTools_Limit := limit |}
       toolsOutput =
     Returns ({| Tools := page; Tools_Total := matching_tools p "" q;
                 Tools_Offset := offset;
                 Tools_Limit := effective_limit limit 100 |}, None) /\
     len page = Z.min (Z.max (matching_tools p "" q - offset) 0)
                      (effective_limit limit 100))
  /\
  (exists page,
     Server_listGroupsUsecase {| provider := groupTier GroupProviderImpl _ gp |} rho ctx
       {| ListGroups_Q := q; ListGroups_ParentID := parentID;
          ListGroups_Offset := offset; ListGroups_Limit := limit |}
       groupsOutput =
     Returns ({| Groups := page; Groups_Total := matching_groups gp parentID q;
                 Groups_Offset := offset;
                 Groups_Limit := effective_limit limit 50 |}, None) /\
     len page = Z.min (Z.max (matching_groups gp parentID q - offset) 0)
                      (effective_limit limit 50)).
Proof.
  intros Hfair Ho Hl Hsum.
  assert (H100 : (0 < effective_limit limit 100)%Z)
    by (unfold effective_limit; destruct (Z.eqb_spec limit 0); lia).
  assert (H50 : (0 < effective_limit limit 50 <= effective_limit limit 100)%Z)
    by (unfold effective_limit; destruct (Z.eqb_spec limit 0); lia).
  split.
  - unfold Server_listToolsUsecase. simpl. fold (effective_limit limit 100).
    rewrite ListTools_unfold. cbv zeta.
    destruct (paginate_in_range (filter (tool_selected "" q) (rho Tool (tools p)))
                offset (effective_limit limit 100)) as (page & -> & _ & Hlen); [lia..|].
    rewrite (selected_count _ rho (tools p) Hfair) in *.
    fold (registered_tools p) in *. fold (matching_tools p "" q) in *.
    exists page. split; [done|]. rewrite Hlen. unfold page_length.
    destruct (Z.eqb_spec (effective_limit limit 100) 0); [lia|done].
  - unfold Server_listGroupsUsecase. simpl. fold (effective_limit limit 50).
    rewrite ListGroups_unfold. cbv zeta.
    destruct (paginate_in_range (filter (group_selected parentID q) (rho Group (groups gp)))
                offset (effective_limit limit 50)) as (page & -> & _ & Hlen); [lia..|].
    rewrite (selected_count _ rho (groups gp) Hfair) in *.
    fold (registered_groups gp) in *. fold (matching_groups gp parentID q) in *.
    exists page. split; [done|]. rewrite Hlen. unfold page_length.
    destruct (Z.eqb_spec (effective_limit limit 50) 0); [lia|done].
Qed.

(** The execution use case in front of a [SimpleProvider]: a nil body
    runs the tool as the empty body does and the [Params] field of the
    input is never read; an unknown tool is answered in the output, with
    code [tool_not_found] and a nil error; and the use case never
    returns an error at all. *)
Theorem executeToolUsecase_answers (p : SimpleProvider) (ctx : Ctx)
    (name : string) (params1 params2 body : Params) (output : ExecuteResponse) :
  let s := {| provider := baseTier SimpleProvider _ p |} in
  Server_executeToolUsecase s ctx
    {| ExecuteTool_Name := name; ExecuteTool_Params := params1;
       ExecuteTool_Body := None |} output =
  Server_executeToolUsecase s ctx
    {| ExecuteTool_Name := name; ExecuteTool_Params := params2;
       ExecuteTool_Body := Some ∅ |} output /\
  (executors p !! name = None ->
   Server_executeToolUsecase s ctx
     {| ExecuteTool_Name := name; ExecuteTool_Params := params1;
        ExecuteTool_Body := body |} output =
   Returns ({| Response_Result := VNil;
               Response_Error := Some {| Code := "tool_not_found";
                                         Message := "Tool not found: " +:+ name |};
               Response_Meta := None |}, None)) /\
  match Server_executeToolUsecase s ctx
          {| ExecuteTool_Name := name; ExecuteTool_Params := params1;
             ExecuteTool_Body := body |} output with
  | Returns (_, Some _) => False
  | _ => True
  end.
Proof.
  cbv zeta. unfold Server_executeToolUsecase. simpl.
  unfold SimpleProvider_ExecuteTool, ToolExecutor, mbind, outcome_bind.
  split; [done|]. split.
  - intros ->. done.
  - destruct (_ !! _) as [[run|]|]; simpl; [|done|done].
    destruct (run ctx _) as [[result [err|]]|]; [|done|done].
    by destruct (Error err).
Qed.

(** The routes follow the capabilities: the three base routes are always
    registered, under the declared tools endpoint; the three group
    routes are registered, under the declared groups endpoint, exactly
    when [features.groups] is set. *)
Theorem routes_follow_capabilities (s : Server) :
  let caps := provider_GetCapabilities (provider s) in
  let routes := Server_registerRoutes s in
  ("GET", "/.well-known/a2t-capabilities.json", capabilitiesRoute) ∈ routes /\
  ("GET", Endpoints_Tools (Endpoints caps), listToolsRoute) ∈ routes /\
  ("POST", Endpoints_Tools (Endpoints caps) +:+ "/{name}", executeToolRoute) ∈ routes /\
  (forall method path usecase,
     (method, path, usecase) ∈ routes ->
     usecase = listGroupsRoute \/ usecase = listGroupToolsRoute \/
     usecase = executeGroupToolRoute ->
     Features_Groups (Features caps) = true) /\
  (Features_Groups (Features caps) = true ->
   ("GET", Endpoints_Groups (Endpoints caps), listGroupsRoute) ∈ routes /\
   ("GET", Endpoints_Groups (Endpoints caps) +:+ "/{id}/tools", listGroupToolsRoute) ∈ routes /\
   ("POST", Endpoints_Groups (Endpoints caps) +:+ "/{id}/tools/{name}",
    executeGroupToolRoute) ∈ routes) /\
  length routes = if Features_Groups (Features caps) then 6 else 3.
Proof.
  cbv zeta. unfold Server_registerRoutes.
  destruct (Features_Groups _); simpl.
  - split; [in_list|]. split; [in_list|]. split; [in_list|].
    split; [done|]. split; [|done].
    intros _. split; [in_list|]. split; in_list.
  - split; [in_list|]. split; [in_list|]. split; [in_list|].
    split; [|done].
    intros method path usecase Hin Hgroup. apply list_elem_of_In in Hin.
    destruct Hin as [[= _ _ <-]|[[= _ _ <-]|[[= _ _ <-]|[]]]];
      destruct Hgroup as [|[|]]; discriminate.
Qed.

(** [NewGroupProvider] turns groups on for every capabilities value it
    is given, and puts the groups endpoint back to ["/groups"] even when
    the caller had chosen another one, so the server in front of it
    registers its group routes there; everything else of the given
    capabilities is kept. *)
Theorem NewGroupProvider_capabilities (caps : option Capabilities) :
  let given := default NewCapabilities caps in
  let c := capabilities (embedded (NewGroupProvider caps)) in
  Features_Groups (Features c) = true /\
  Endpoints_Groups (Endpoints c) = "/groups" /\
  Version c = Version given /\
  Endpoints_Tools (Endpoints c) = Endpoints_Tools (Endpoints given) /\
  Features_Search (Features c) = Features_Search (Features given) /\
  Features_DynamicTools (Features c) = Features_DynamicTools (Features given) /\
  Limits c = Limits given /\
  ("GET", "/groups", listGroupsRoute) ∈
    Server_registerRoutes {| provider := groupTier GroupProviderImpl _ (NewGroupProvider caps) |}.
Proof.
  cbv zeta. destruct caps as [c|]; simpl; repeat split; in_list.
Qed.

(** Capabilities made by [NewCapabilities] and the builders keep version
    ["1.0"] and the tools endpoint ["/tools"], and have a non-empty groups
    endpoint exactly when groups are enabled. *)
Theorem capabilities_built_invariant (c : Capabilities) :
  capabilities_built c ->
  Version c = "1.0" /\
  Endpoints_Tools (Endpoints c) = "/tools" /\
  (Features_Groups (Features c) = true <-> Endpoints_Groups (Endpoints c) ≠ "").
Proof.
  induction 1 as [|c endpoint _ (IHv & IHt & IHg)|c _ IH|c _ IH|c limits _ IH]; simpl;
    try done.
  split; [done|]. split; [done|]. split; [|done].
  intros _. by case_bool_decide.
Qed.

(** ** Building tools *)

(** On a tool whose schema has a [properties] object and a [required]
    list, as every tool made by [NewTool] and the builders has,
    [WithProperty] does not panic: it files [{type, description}] under
    the property's name, replacing an earlier property of that name,
    appends the name to [required] when asked to (without looking
    whether it is there already, so a second call lists it twice), and
    leaves name, description, group and the other schema entries alone.
    Without a [properties] object it panics. *)
Theorem WithProperty_on_shaped_schema (t : Tool) (props : gmap string Value)
    (reqs : list string) (name propType description : string) (required : bool) :
  schema_shaped t props reqs ->
  (exists t',
     Tool_WithProperty t name propType description required = Returns t' /\
     schema_shaped t'
       (<[name := VMap (<["type" := VString propType]>
                        (<["description" := VString description]> ∅))]> props)
       (if required then reqs ++ [name] else reqs) /\
     Tool_Name t' = Tool_Name t /\ Tool_Description t' = Tool_Description t /\
     Tool_GroupID t' = Tool_GroupID t /\
     (forall key, key ≠ "properties" -> key ≠ "required" ->
        Tool_InputSchema t' !! key = Tool_InputSchema t !! key) /\
     (exists t'',
        Tool_WithProperty t' name propType description true = Returns t'' /\
        schema_shaped t''
          (<[name := VMap (<["type" := VString propType]>
                           (<["description" := VString description]> ∅))]> props)
          ((if required then reqs ++ [name] else reqs) ++ [name])))
  /\
  schema_shaped (NewTool name description) ∅ [] /\
  (forall groupID, schema_shaped (Tool_WithGroup t groupID) props reqs) /\
  (forall t0 : Tool, Tool_InputSchema t0 !! "properties" = None ->
     Tool_WithProperty t0 name propType description required = Panics).
Proof.
  intros [Hprops Hreqs].
  assert (Hstep : forall (t1 : Tool) props1 reqs1 req,
    schema_shaped t1 props1 reqs1 ->
    exists t2,
      Tool_WithProperty t1 name propType description req = Returns t2 /\
      schema_shaped t2
        (<[name := VMap (<["type" := VString propType]>
                         (<["description" := VString description]> ∅))]> props1)
        (if req then reqs1 ++ [name] else reqs1) /\
      Tool_Name t2 = Tool_Name t1 /\ Tool_Description t2 = Tool_Description t1 /\
      Tool_GroupID t2 = Tool_GroupID t1 /\
      (forall key, key ≠ "properties" -> key ≠ "required" ->
         Tool_InputSchema t2 !! key = Tool_InputSchema t1 !! key)).
  { intros t1 props1 reqs1 req [Hp Hr]. unfold Tool_WithProperty. rewrite Hp.
    destruct req.
    - rewrite lookup_insert_ne by done. rewrite Hr.
      eexists. split; [done|]. unfold schema_shaped. simpl.
      rewrite lookup_insert_ne by done. rewrite !lookup_insert_eq.
      repeat split; try done.
      intros key Hk1 Hk2. by rewrite !lookup_insert_ne.
    - eexists. split; [done|]. unfold schema_shaped. simpl.
      rewrite lookup_insert_eq. rewrite lookup_insert_ne by done.
      repeat split; try done.
      intros key Hk1 Hk2. by rewrite lookup_insert_ne. }
  split; [|split; [|split]].
  - destruct (Hstep t props reqs required (conj Hprops Hreqs))
      as (t' & Ht' & Hshape & Hn & Hd & Hg & Hkeys).
    exists t'. repeat split; try done; try apply Hshape.
    destruct (Hstep t' _ _ true Hshape) as (t'' & Ht'' & Hshape'' & _).
    exists t''. split; [done|]. by rewrite insert_insert_eq in Hshape''.
  - done.
  - done.
  - intros t0 Hnone. unfold Tool_WithProperty. by rewrite Hnone.
Qed.

(** ** More on meta responses *)

(** A [group_refresh] meta round-trips as [tools_added] does: the group
    IDs come back unchanged under [group_ids]; the two kinds do not read
    as one another; and [WithMeta] replaces an earlier meta (a nil meta
    clears it), touching neither result nor error. *)
Theorem group_refresh_round_trip (ids : list string) (ts : list Tool)
    (r : ExecuteResponse) (meta1 meta2 : option MetaResponse) :
  meta_data_group_ids (ExecuteResponse_WithMeta r (Some (NewMetaGroupRefresh ids))) = Some ids /\
  meta_data_tools (ExecuteResponse_WithMeta r (Some (NewMetaGroupRefresh ids))) = None /\
  meta_data_group_ids (ExecuteResponse_WithMeta r (Some (NewMetaToolsAdded ts))) = None /\
  Meta_Type (NewMetaGroupRefresh ids) ≠ Meta_Type (NewMetaToolsAdded ts) /\
  ExecuteResponse_WithMeta (ExecuteResponse_WithMeta r meta1) meta2 =
    ExecuteResponse_WithMeta r meta2 /\
  Response_Meta (ExecuteResponse_WithMeta r None) = None /\
  Response_Result (ExecuteResponse_WithMeta r meta1) = Response_Result r /\
  Response_Error (ExecuteResponse_WithMeta r meta1) = Response_Error r.
Proof.
  unfold meta_data_group_ids, meta_data_tools, ExecuteResponse_WithMeta,
    NewMetaGroupRefresh, NewMetaToolsAdded. simpl.
  rewrite lookup_insert_eq, !lookup_insert_ne by done. rewrite !lookup_empty.
  repeat split; done.
Qed.

(** ** Tools and groups are registered independently *)

(** Registering a tool under a group ID neither needs that group to be
    registered nor touches the groups: [GetGroup] answers for every ID as
    before (so no [tool_count] moves, and an unregistered group stays
    [group_not_found]), while the full listing of that group, through
    the promoted [ListTools], contains the tool. *)
Theorem RegisterTool_ignores_groups (p : GroupProviderImpl) (tool : Tool)
    (executor : ToolExecutor) (rho : RangeOrder) (ctx : Ctx) (groupID : string) :
  let p' := GroupProviderImpl_RegisterTool p tool executor in
  range_fair rho ->
  GroupProviderImpl_GetGroup p' ctx groupID = GroupProviderImpl_GetGroup p ctx groupID /\
  (forall rho' parentID query offset limit,
     GroupProviderImpl_ListGroups p' rho' ctx parentID query offset limit =
     GroupProviderImpl_ListGroups p rho' ctx parentID query offset limit) /\
  exists page,
    ListTools p' rho ctx (Tool_GroupID tool) "" 0 0 =
      Returns (Some {| Tools := page; Tools_Total := len page;
                       Tools_Offset := 0; Tools_Limit := 0 |}, None) /\
    tool ∈ page.
Proof.
  cbv zeta. intros Hfair. split; [done|]. split; [done|].
  simpl. rewrite ListTools_unfold. cbv zeta. rewrite paginate_everything.
  eexists. split; [done|].
  apply list_elem_of_filter. split.
  - apply tool_selected_spec. by split.
  - rewrite (Hfair Tool _). simpl.
    apply list_elem_of_fmap. exists (Tool_Name tool, tool). split; [done|].
    apply elem_of_map_to_list. apply lookup_insert_eq.
Qed.

(** The group-scoped listing route in front of a [GroupProviderImpl]
    passes the group ID of the path on as the group filter and [0] as
    limit 100: for non-negative [offset] and [limit] whose sum
    [offset + effective limit] is an [int] (at most [MaxInt]) it returns,
    with a nil error, a page of tools that all carry that group ID,
    [total] being the number of tools of the group that pass the query. *)
Theorem listGroupToolsUsecase_filters_by_path (gp : GroupProviderImpl) (rho : RangeOrder)
    (ctx : Ctx) (id q : string) (offset limit : Z) (output : ToolsResponse) :
  id ≠ "" -> range_fair rho -> (0 <= offset)%Z -> (0 <= limit)%Z ->
  (offset + effective_limit limit 100 <= MaxInt)%Z ->
  exists page,
    Server_listGroupToolsUsecase {| provider := groupTier GroupProviderImpl _ gp |} rho ctx
      {| ListGroupTools_ID := id; ListGroupTools_Q := q;
         ListGroupTools_Offset := offset; ListGroupTools_Limit := limit |} output =
    Returns ({| Tools := page; Tools_Total := matching_tools (embedded gp) id q;
                Tools_Offset := offset;
                Tools_Limit := effective_limit limit 100 |}, None) /\
    Forall (fun t => Tool_GroupID t = id) page /\
    (len page <= effective_limit limit 100)%Z.
Proof.
  intros Hid Hfair Ho Hl Hsum.
  assert (H100 : (0 < effective_limit limit 100)%Z)
    by (unfold effective_limit; destruct (Z.eqb_spec limit 0); lia).
  unfold Server_listGroupToolsUsecase. simpl. fold (effective_limit limit 100).
  rewrite ListTools_unfold. cbv zeta.
  destruct (paginate_in_range (filter (tool_selected id q) (rho Tool (tools (embedded gp))))
              offset (effective_limit limit 100)) as (page & Hpage & _ & _); [lia..|].
  rewrite Hpage. simpl.
  rewrite (selected_count _ rho (tools (embedded gp)) Hfair).
  fold (registered_tools (embedded gp)). fold (matching_tools (embedded gp) id q).
  exists page. split; [done|]. split.
  - apply Forall_forall. intros t Ht.
    apply paginate_sublist, sublist_subseteq in Hpage. apply Hpage in Ht.
    apply list_elem_of_filter in Ht as [Ht _].
    apply tool_selected_spec in Ht as [Hg _]. by apply Hg.
  - by eapply paginate_length_le.
Qed.

End A2T.

(** ** The theorems at concrete inputs

    The strings below are ASCII, so [ToLower] never takes its Unicode
    path, which is given [ascii_only]; the context is the unit value. *)

Lemma ListTools_page_length_witness :
  exists page : list Tool,
    SimpleProvider_ListTools unit ascii_only (two_tools unit) range_sorted tt "" "" 1 1 =
      Returns (Some {| Tools := page; Tools_Total := 2;
                       Tools_Offset := 1; Tools_Limit := 1 |}, None) /\
    len page = 1%Z.
Proof.
  destruct (ListTools_page_length unit ascii_only (two_tools unit) (two_groups unit)
              range_sorted tt "" "" 1 1 range_sorted_fair
              ltac:(lia) ltac:(lia) ltac:(unfold MaxInt; lia))
    as [(page & Heq & Hlen & _) _].
  exists page. split; [exact Heq|exact Hlen].
Defined.

(** The formula of the specification, read as it is written, at
    [total = 2], [offset = 3], [limit = 0]: the page is empty, the
    formula gives [-1]. *)
Lemma page_length_as_specified_fails :
  range_fair range_sorted /\ (0 <= 3)%Z /\ (0 <= 0)%Z /\
  SimpleProvider_ListTools unit ascii_only (two_tools unit) range_sorted tt "" "" 3 0 =
    Returns (Some {| Tools := []; Tools_Total := 2;
                     Tools_Offset := 3; Tools_Limit := 0 |}, None) /\
  len ([] : list Tool) ≠ page_length_as_specified 2 3 0.
Proof.
  split; [apply range_sorted_fair|]. split; [lia|]. split; [lia|].
  split; [by vm_compute|]. by vm_compute.
Qed.

(** A base-tier provider behind registered group routes: the error of
    [list_groups] is a plain error value, not a code and a message. *)
Lemma groups_not_supported_is_unstructured :
  ("GET", "/groups", listGroupsRoute) ∈ Server_registerRoutes unit (base_with_group_routes unit ascii_only) /\
  Server_listGroupsUsecase unit (base_with_group_routes unit ascii_only) range_sorted tt
    {| ListGroups_Q := ""; ListGroups_ParentID := "";
       ListGroups_Offset := 0; ListGroups_Limit := 0 |} zero_GroupsResponse =
    Returns (zero_GroupsResponse, Some (errorString "groups not supported")) /\
  ~ protocol_level_error (Some (errorString "groups not supported")).
Proof.
  split; [|split].
  - vm_compute. do 3 apply list_elem_of_further. apply list_elem_of_here.
  - done.
  - by intros [d [=]].
Qed.

Lemma ExecuteTool_executor_failure_witness :
  SimpleProvider_ExecuteTool unit (two_tools unit) tt "uppercase" (Some ∅) =
    Returns (Some {| Response_Result := VNil;
                     Response_Error := Some {| Code := "execution_error";
                                               Message := "invalid timezone: Mars" |};
                     Response_Meta := None |}, None).
Proof.
  apply (proj1 (ExecuteTool_executor_failure unit (two_tools unit) tt "uppercase" (Some ∅)
                  (fun _ _ => Returns (VNil, Some (errorString "invalid timezone: Mars")))
                  VNil (errorString "invalid timezone: Mars") eq_refl eq_refl)).
  reflexivity.
Defined.

(** A registered executor that returns a nil [*ErrorDetail] as its
    error: the error is not nil, its [Error()] panics, and [ExecuteTool]
    panics instead of answering [execution_error]. *)
Lemma ExecuteTool_failure_escapes :
  executors unit (nil_detail_provider unit) !! "lookup" = Some (nil_detail_executor unit) /\
  nil_detail_executor unit =
    Some (fun _ _ => Returns (VNil, Some (errorDetail None))) /\
  Error (errorDetail None) = Panics /\
  SimpleProvider_ExecuteTool unit (nil_detail_provider unit) tt "lookup" (Some ∅) = Panics.
Proof. repeat split. Qed.

Lemma ExecuteTool_unknown_tool_witness :
  SimpleProvider_ExecuteTool unit (two_tools unit) tt "nonexistent" (Some ∅) =
    Returns (Some {| Response_Result := VNil;
                     Response_Error := Some {| Code := "tool_not_found";
                                               Message := "Tool not found: nonexistent" |};
                     Response_Meta := None |}, None).
Proof.
  apply (ExecuteTool_unknown_tool unit (two_tools unit) tt "nonexistent" (Some ∅)).
  reflexivity.
Defined.

Lemma query_matches_lowercase_substring_witness :
  substring_of (ToLower ascii_only "ADD") (ToLower ascii_only "add two numbers") \/
  substring_of (ToLower ascii_only "ADD") (ToLower ascii_only "").
Proof.
  apply (proj1 (proj1 (query_matches_lowercase_substring unit ascii_only (two_tools unit)
                  range_sorted tt "add two numbers" "" "ADD" range_sorted_fair))).
  exact I.
Defined.

Lemma ListTools_group_filter_witness :
  SimpleProvider_ListTools unit ascii_only (two_tools unit) range_reversed tt "math" "" 0 0 =
    Returns (Some {| Tools := [add_tool]; Tools_Total := 1;
                     Tools_Offset := 0; Tools_Limit := 0 |}, None) /\
  SimpleProvider_ListTools unit ascii_only (two_tools unit) range_reversed tt "physics" "" 5 10 =
    Returns (Some {| Tools := []; Tools_Total := 0;
                     Tools_Offset := 5; Tools_Limit := 10 |}, None).
Proof.
  split.
  - apply (ListTools_group_filter unit ascii_only (two_tools unit) range_reversed tt
             "math" "" 0 0 ltac:(discriminate) range_reversed_fair).
  - apply (ListTools_group_filter unit ascii_only (two_tools unit) range_reversed tt
             "physics" "" 5 10 ltac:(discriminate) range_reversed_fair); [lia|].
    apply group_absent_check. by vm_compute.
Defined.



(** ** The further properties at concrete inputs *)

Lemma registry_invariant_witness :
  NoDup (Tool_Name <$> [uppercase_tool; add_tool]).
Proof.
  assert (Hbuilt : registry_built unit (two_tools unit))
    by apply registry_register, registry_register, registry_new.
  apply (proj2 (proj2 (registry_invariant unit ascii_only (two_tools unit) range_sorted tt
                         "" "" 0 0 Hbuilt range_sorted_fair))
           {| Tools := [uppercase_tool; add_tool]; Tools_Total := 2;
              Tools_Offset := 0; Tools_Limit := 0 |} None).
  by vm_compute.
Defined.

Lemma ListGroups_parent_filter_witness :
  Forall (fun g => g ∈ registered_groups unit (nested_groups unit) /\ Group_ParentID g = "math")
         [algebra_group].
Proof.
  assert (Heq : GroupProviderImpl_ListGroups unit ascii_only (nested_groups unit) range_sorted tt
                  "math" "" 0 0 =
                Returns (Some {| Groups := [algebra_group]; Groups_Total := 1;
                                 Groups_Offset := 0; Groups_Limit := 0 |}, None))
    by (by vm_compute).
  destruct (proj1 (ListGroups_parent_filter unit ascii_only (nested_groups unit) range_sorted tt
                     "math" "" 0 0 ltac:(discriminate) range_sorted_fair) _ _ Heq)
    as (_ & r & Hr & Hall & _).
  injection Hr as <-. exact Hall.
Defined.

Lemma ListTools_pages_tile_witness :
  exists page1 page2 total,
    SimpleProvider_ListTools unit ascii_only (two_tools unit) range_sorted tt "" "" 0 1 =
      Returns (Some {| Tools := page1; Tools_Total := total;
                       Tools_Offset := 0; Tools_Limit := 1 |}, None) /\
    SimpleProvider_ListTools unit ascii_only (two_tools unit) range_sorted tt "" "" 1 1 =
      Returns (Some {| Tools := page2; Tools_Total := total;
                       Tools_Offset := 1; Tools_Limit := 1 |}, None) /\
    SimpleProvider_ListTools unit ascii_only (two_tools unit) range_sorted tt "" "" 0 2 =
      Returns (Some {| Tools := page1 ++ page2; Tools_Total := total;
                       Tools_Offset := 0; Tools_Limit := 2 |}, None).
Proof.
  apply (ListTools_pages_tile unit ascii_only (two_tools unit) range_sorted tt "" "" 0 1 1);
    unfold MaxInt; lia.
Defined.

Lemma negative_arguments_panic_witness :
  SimpleProvider_ListTools unit ascii_only (two_tools unit) range_sorted tt "" "" (-1) 10 =
    Panics.
Proof.
  apply (proj1 (negative_arguments_panic unit ascii_only (two_tools unit) (two_groups unit)
                  range_sorted tt "" "" (-1) 10 zero_ToolsResponse ltac:(lia))).
Defined.

Lemma ListTools_answer_bounds_witness :
  match SimpleProvider_ListTools unit ascii_only (two_tools unit) range_reversed tt
          "" "" 1 5 with
  | Returns (Some r, None) =>
      Tools_Total r = matching_tools unit ascii_only (two_tools unit) "" "" /\
      (len (Tools r) <= Tools_Total r <= Z.of_nat (size (tools unit (two_tools unit))))%Z /\
      (0 < 5 -> len (Tools r) <= 5)%Z /\
      ("" = "" -> "" = "" -> Tools_Total r = Z.of_nat (size (tools unit (two_tools unit)))) /\
      Tools_Offset r = 1%Z /\ Tools_Limit r = 5%Z
  | Returns _ => False
  | Panics => (1 < 0)%Z \/ (5 < 0)%Z \/ (MaxInt < 1 + 5)%Z
  end.
Proof.
  exact (ListTools_answer_bounds unit ascii_only (two_tools unit) range_reversed tt
           "" "" 1 5 range_reversed_fair).
Defined.

Lemma shorter_query_matches_more_witness :
  (matching_tools unit ascii_only (two_tools unit) "" "ADD TWO" <=
   matching_tools unit ascii_only (two_tools unit) "" "add")%Z.
Proof.
  apply (shorter_query_matches_more unit ascii_only (two_tools unit) ""
           "add" "Add two numbers" "ADD TWO" "add").
  by exists EmptyString, " two".
Defined.

Lemma listing_usecases_default_limit_witness :
  exists page,
    Server_listToolsUsecase unit
      {| provider := baseTier unit (SimpleProvider unit)
                       (SimpleProvider_implements unit ascii_only) (two_tools unit) |}
      range_sorted tt
      {| ListTools_Q := ""; ListTools_Offset := 0; ListTools_Limit := 0 |}
      zero_ToolsResponse =
    Returns ({| Tools := page; Tools_Total := 2;
                Tools_Offset := 0; Tools_Limit := 100 |}, None) /\
    len page = 2%Z.
Proof.
  destruct (proj1 (listing_usecases_default_limit unit ascii_only (two_tools unit)
                     (two_groups unit) range_sorted tt "" "" 0 0
                     zero_ToolsResponse zero_GroupsResponse range_sorted_fair
                     ltac:(lia) ltac:(lia)
                     ltac:(unfold MaxInt, effective_limit; simpl; lia)))
    as (page & Heq & Hlen).
  exists page. split; [exact Heq|exact Hlen].
Defined.

Lemma capabilities_built_invariant_witness :
  let c := Capabilities_WithLimits
             (Capabilities_WithDynamicTools
                (Capabilities_WithSearch (Capabilities_WithGroups NewCapabilities "/catalog")))
             None in
  Version c = "1.0" /\
  Endpoints_Tools (Endpoints c) = "/tools" /\
  (Features_Groups (Features c) = true <-> Endpoints_Groups (Endpoints c) ≠ "").
Proof.
  apply capabilities_built_invariant.
  apply built_limits, built_dynamic, built_search, built_groups, built_new.
Defined.

Lemma WithProperty_on_shaped_schema_witness :
  exists t',
    Tool_WithProperty (NewTool "add" "Add two numbers") "a" "number" "First number" true =
      Returns t' /\
    schema_shaped t'
      (<["a" := VMap (<["type" := VString "number"]>
                      (<["description" := VString "First number"]> ∅))]> ∅)
      ["a"].
Proof.
  destruct (proj1 (WithProperty_on_shaped_schema (NewTool "add" "Add two numbers") ∅ []
                     "a" "number" "First number" true
                     (conj eq_refl eq_refl)))
    as (t' & Heq & Hshape & _).
  exists t'. split; [exact Heq|exact Hshape].
Defined.

Lemma RegisterTool_ignores_groups_witness :
  GroupProviderImpl_GetGroup unit
    (GroupProviderImpl_RegisterTool unit (NewGroupProvider unit None) add_tool
       (echo_executor unit)) tt "math" =
  Returns (None, Some (errorDetail (Some {| Code := "group_not_found";
                                            Message := "Group not found: math" |}))).
Proof.
  rewrite (proj1 (RegisterTool_ignores_groups unit ascii_only (NewGroupProvider unit None)
                    add_tool (echo_executor unit) range_sorted tt "math" range_sorted_fair)).
  reflexivity.
Defined.

Lemma listGroupToolsUsecase_filters_by_path_witness :
  exists page,
    Server_listGroupToolsUsecase unit (group_server unit ascii_only) range_sorted tt
      {| ListGroupTools_ID := "math"; ListGroupTools_Q := "";
         ListGroupTools_Offset := 0; ListGroupTools_Limit := 0 |} zero_ToolsResponse =
    Returns ({| Tools := page; Tools_Total := 1;
                Tools_Offset := 0; Tools_Limit := 100 |}, None) /\
    Forall (fun t => Tool_GroupID t = "math") page.
Proof.
  destruct (listGroupToolsUsecase_filters_by_path unit ascii_only (two_groups unit)
              range_sorted tt "math" "" 0 0 zero_ToolsResponse
              ltac:(discriminate) range_sorted_fair ltac:(lia) ltac:(lia)
              ltac:(unfold MaxInt, effective_limit; simpl; lia))
    as (page & Heq & Hall & _).
  exists page. split; [exact Heq|exact Hall].
Defined.
